(** * fmdapi: the FileMaker Data API client of [src/client.ts]

    A shallow embedding of [DataApi] and of the closures it returns
    ([getToken], [request], [list], [find], [findOne], [disconnect]), followed
    by the properties of the token cache, of the error normalisation and of
    the parameter shaping.

    - JavaScript values that flow through the client (arguments, parsed
      response bodies) are the JSON-shaped values of [JS.value], with
      [undefined] added.  Numbers are the integer-valued ones; strings are
      sequences of code units, one [ascii] each.
    - The closure variable [token] and the sequence of [fetch] calls made so
      far form the state [World]; the remote server is a function from the
      calls made so far and the current call to the outcome of [fetch].
    - A computation is a function [World -> outcome * World]: a [throw]
      (or a rejected promise) keeps the assignments made before it.  Each
      call runs to its end on its own; what other calls could do to [token]
      while this one awaits is not part of the model. *)

From Stdlib Require Import String Ascii List ZArith Bool Lia.
From Stdlib Require Import DecimalString DecimalZ.
Import ListNotations.
Local Open Scope string_scope.
Local Open Scope Z_scope.

(** ** JavaScript values *)

Module JS.

#[warnings="-register-all"]
Inductive value : Type :=
| VUndefined
| VNull
| VBool (b : bool)
| VNum (n : Z)
| VStr (s : string)
| VArr (items : list value)
| VObj (props : list (string * value)).

(** An object is its list of own properties, in enumeration order. *)
Definition obj : Type := list (string * value).

(** [v === w] is only ever used against a string or a number literal. *)
Definition strict_eq_str (v : value) (s : string) : bool :=
  match v with
  | VStr t => String.eqb t s
  | _ => false
  end.

Definition strict_eq_num (v : value) (n : Z) : bool :=
  match v with
  | VNum m => Z.eqb m n
  | _ => false
  end.

(** [!!v] *)
Definition truthy (v : value) : bool :=
  match v with
  | VUndefined | VNull => false
  | VBool b => b
  | VNum n => negb (Z.eqb n 0)
  | VStr s => negb (String.eqb s "")
  | VArr _ | VObj _ => true
  end.

(** [v == null], the test behind [?.] and [??]. *)
Definition nullish (v : value) : bool :=
  match v with
  | VUndefined | VNull => true
  | _ => false
  end.

(** [Array.isArray(v)] *)
Definition isArray (v : value) : bool :=
  match v with
  | VArr _ => true
  | _ => false
  end.

(** [o[k]] on an own-property list; [undefined] when [k] is absent. *)
Fixpoint lookup (k : string) (o : obj) : value :=
  match o with
  | [] => VUndefined
  | (k', v) :: o' => if String.eqb k k' then v else lookup k o'
  end.

(** [Object.hasOwn(o, k)] *)
Definition has (k : string) (o : obj) : bool :=
  existsb (fun p => String.eqb k (fst p)) o.

(** [o[k] = v]: an existing property keeps its place, a new one goes last
    (the place of a new key that is an array index, which JavaScript
    enumerates first, is not modelled). *)
Fixpoint set (k : string) (v : value) (o : obj) : obj :=
  match o with
  | [] => [(k, v)]
  | (k', v') :: o' =>
      if String.eqb k k' then (k, v) :: o' else (k', v') :: set k v o'
  end.

(** [delete o[k]] *)
Definition delete (k : string) (o : obj) : obj :=
  filter (fun p => negb (String.eqb k (fst p))) o.

(** The rest pattern [{ k1, ..., kn, ...rest } = o]. *)
Definition rest (ks : list string) (o : obj) : obj :=
  filter (fun p => negb (existsb (String.eqb (fst p)) ks)) o.

(** The spread [{ ...o1, ...o2 }] and its special case [{ k: v, ...o }]. *)
Definition spread (o1 o2 : obj) : obj :=
  fold_left (fun acc p => set (fst p) (snd p) acc) o2 o1.

(** [n.toString()] and [`${n}`] for an integer-valued number of magnitude
    below 1e21 (from there on JavaScript prints an exponent). *)
Definition Number_toString (n : Z) : string :=
  NilZero.string_of_int (Z.to_int n).

(** The own enumerable properties that [{ ...v }] copies: those of an
    object, the indexed items of an array, the indexed units of a string,
    none for anything else. *)
Fixpoint indexed (i : Z) (items : list value) : obj :=
  match items with
  | [] => []
  | x :: items' => (Number_toString i, x) :: indexed (i + 1) items'
  end.

Fixpoint units (s : string) : list value :=
  match s with
  | EmptyString => []
  | String c s' => VStr (String c "") :: units s'
  end.

Definition own_props (v : value) : obj :=
  match v with
  | VObj o => o
  | VArr items => indexed 0 items
  | VStr s => indexed 0 (units s)
  | _ => []
  end.

(** [`${v}`]: the string conversion of a template literal. *)
Fixpoint ToString (v : value) : string :=
  match v with
  | VUndefined => "undefined"
  | VNull => "null"
  | VBool true => "true"
  | VBool false => "false"
  | VNum n => Number_toString n
  | VStr s => s
  | VArr items =>
      let item x := if nullish x then "" else ToString x in
      String.concat "," (map item items)
  | VObj _ => "[object Object]"
  end.

(** [JSON.stringify]'s quoting of a string. *)
Definition hex_digit (n : nat) : ascii :=
  nth n (list_ascii_of_string "0123456789abcdef") "0"%char.

Definition backslash : ascii := ascii_of_nat 92.
Definition dquote : ascii := ascii_of_nat 34.

Definition quote_unit (c : ascii) : string :=
  let n := nat_of_ascii c in
  if Nat.eqb n 8 then String backslash "b"
  else if Nat.eqb n 9 then String backslash "t"
  else if Nat.eqb n 10 then String backslash "n"
  else if Nat.eqb n 12 then String backslash "f"
  else if Nat.eqb n 13 then String backslash "r"
  else if Nat.eqb n 34 then String backslash (String dquote "")
  else if Nat.eqb n 92 then String backslash (String backslash "")
  else if Nat.ltb n 32 then
    String backslash "u00"
    ++ String (hex_digit (Nat.div n 16)) (String (hex_digit (Nat.modulo n 16)) "")
  else String c "".

Fixpoint quote_units (s : string) : string :=
  match s with
  | EmptyString => ""
  | String c s' => quote_unit c ++ quote_units s'
  end.

Definition QuoteJSONString (s : string) : string :=
  String dquote (quote_units s ++ String dquote "").

Definition newline : string := String (ascii_of_nat 10) "".

(** [JSON.stringify(v, null, 2)] at the current indentation [ind]; [None] is
    the [undefined] it returns for [undefined] itself.  An [undefined] array
    item prints as [null], an [undefined] property is left out. *)
Fixpoint SerializeJSONProperty (ind : string) (v : value) : option string :=
  match v with
  | VUndefined => None
  | VNull => Some "null"
  | VBool true => Some "true"
  | VBool false => Some "false"
  | VNum n => Some (Number_toString n)
  | VStr s => Some (QuoteJSONString s)
  | VArr items =>
      let stepback := ind in
      let ind := ind ++ "  " in
      let item x :=
        match SerializeJSONProperty ind x with
        | Some s => s
        | None => "null"
        end in
      match map item items with
      | [] => Some "[]"
      | partial =>
          let separator := "," ++ newline ++ ind in
          Some ("[" ++ newline ++ ind ++ String.concat separator partial
                ++ newline ++ stepback ++ "]")
      end
  | VObj props =>
      let stepback := ind in
      let ind := ind ++ "  " in
      let member (p : string * value) :=
        let (k, x) := p in
        match SerializeJSONProperty ind x with
        | Some s => [QuoteJSONString k ++ ": " ++ s]
        | None => []
        end in
      match flat_map member props with
      | [] => Some "{}"
      | partial =>
          let separator := "," ++ newline ++ ind in
          Some ("{" ++ newline ++ ind ++ String.concat separator partial
                ++ newline ++ stepback ++ "}")
      end
  end.

(** [`${JSON.stringify(v, null, 2)}`] *)
Definition JSON_stringify (v : value) : string :=
  match SerializeJSONProperty "" v with
  | Some s => s
  | None => "undefined"
  end.

End JS.

(** ** The platform: URL objects, requests and responses *)

Module Http.

(** A [URL] object: the string given to [new URL], and its [port] property
    once an assignment has changed it ([None] while the port is still the
    one of that string; [Some ""] for the empty port, which stands for the
    default port of the scheme). *)
Record URL : Type := {
  href : string;
  port : option string
}.

Definition lower_unit (c : ascii) : ascii :=
  let n := nat_of_ascii c in
  if (65 <=? n)%nat && (n <=? 90)%nat then ascii_of_nat (n + 32) else c.

Fixpoint lower (s : string) : string :=
  match s with
  | EmptyString => EmptyString
  | String c s' => String (lower_unit c) (lower s')
  end.

(** The default port of the scheme of [href], for the schemes that have
    one. *)
Definition scheme_default_port (href : string) : option Z :=
  let h := lower href in
  if String.prefix "http:" h then Some 80
  else if String.prefix "https:" h then Some 443
  else if String.prefix "ws:" h then Some 80
  else if String.prefix "wss:" h then Some 443
  else if String.prefix "ftp:" h then Some 21
  else None.

Definition is_digit (c : ascii) : bool :=
  let n := nat_of_ascii c in (48 <=? n)%nat && (n <=? 57)%nat.

(** The digits a port assignment reads: those at the start of the value,
    up to the first unit that is not a digit. *)
Fixpoint port_buffer (value : string) : string :=
  match value with
  | EmptyString => EmptyString
  | String c value' =>
      if is_digit c then String c (port_buffer value') else EmptyString
  end.

(** [url.port = value].  The empty value clears the port; a value that does
    not start with a digit, or whose digits read more than 65535, leaves the
    URL as it is; otherwise the port becomes the number read, shown as the
    empty port when it is the default port of the scheme.  A [file:] URL
    takes no port; a URL of any other scheme is taken to have a host.  (The
    values assigned here are texts of numbers; the tabs and line breaks
    that the platform drops from a value first are not modelled.) *)
Definition URL_set_port (url : URL) (value : string) : URL :=
  if String.prefix "file:" (lower (href url)) then url
  else if String.eqb value "" then {| href := href url; port := Some "" |}
  else
    match port_buffer value with
    | EmptyString => url
    | buffer =>
        match NilEmpty.uint_of_string buffer with
        | None => url
        | Some d =>
            let p := Z.of_uint d in
            if 65535 <? p then url
            else
              match scheme_default_port (href url) with
              | Some default =>
                  if p =? default
                  then {| href := href url; port := Some "" |}
                  else {| href := href url; port := Some (JS.Number_toString p) |}
              | None =>
                  {| href := href url; port := Some (JS.Number_toString p) |}
              end
        end
    end.

Inductive Authorization : Type :=
| Basic (username password : string)   (* `Basic ${base64(username:password)}` *)
| Bearer (token : string).             (* `Bearer ${token}` *)

(** One [fetch] call.  Every call of the client carries
    [Content-Type: application/json]; the query and the body are kept as the
    objects handed to [URLSearchParams] and to [JSON.stringify]. *)
Record Request : Type := {
  method : string;
  base : URL;
  path : string;
  query : option JS.obj;
  body : option JS.obj;
  authorization : Authorization
}.

(** What the client reads of a response: [res.status], the outcome of
    [res.json()] ([None] when it rejects) and
    [res.headers.get("X-FM-Data-Access-Token")] ([None] for [null]). *)
Record Response : Type := {
  status : Z;
  json : option JS.value;
  access_token : option string
}.

(** [res.ok]: the status is in the range 200-299. *)
Definition ok (res : Response) : bool :=
  (200 <=? status res) && (status res <=? 299).

(** [fetch] either rejects or resolves to a response. *)
Inductive fetched : Type :=
| Rejected
| Responded (res : Response).

(** The remote side: the calls made so far, then the call being made. *)
Definition Server : Type := list Request -> Request -> fetched.

End Http.

Import Http.

(** ** Errors and computations *)

Inductive error : Type :=
| FileMakerError (code message : JS.value)  (* new FileMakerError(code, message) *)
| JsError (message : string)                (* new Error(message) *)
| TypeError                                 (* a property read on undefined or null *)
| SyntaxError                               (* res.json() rejecting *)
| FetchError                                (* fetch rejecting *)
| ZodError.                                 (* ZodOptions.strict().parse rejecting *)

Inductive outcome (A : Type) : Type :=
| Return (a : A)
| Throw (e : error).

Arguments Return {A} a.
Arguments Throw {A} e.

(** The closure variable [token] and the [fetch] calls made so far. *)
Record World : Type := {
  token : option string;
  calls : list Request
}.

Definition M (A : Type) : Type := World -> outcome A * World.

Definition ret {A} (a : A) : M A := fun w => (Return a, w).

Definition throw {A} (e : error) : M A := fun w => (Throw e, w).

Definition bind {A B} (m : M A) (k : A -> M B) : M B :=
  fun w =>
    match m w with
    | (Return a, w') => k a w'
    | (Throw e, w') => (Throw e, w')
    end.

(** [m.catch(handler)] *)
Definition catch {A} (m : M A) (handler : error -> M A) : M A :=
  fun w =>
    match m w with
    | (Return a, w') => (Return a, w')
    | (Throw e, w') => handler e w'
    end.

(** A pure step that may throw. *)
Definition lift {A} (o : outcome A) : M A := fun w => (o, w).

Declare Scope client_scope.
Delimit Scope client_scope with client.
Notation "x <- m ;; k" := (bind m (fun x => k))
  (at level 61, m at next level, right associativity) : client_scope.
Notation "m ;; k" := (bind m (fun _ => k))
  (at level 61, right associativity) : client_scope.
Local Open Scope client_scope.

Definition read_token : M (option string) := fun w => (Return (token w), w).

Definition write_token (t : option string) : M unit :=
  fun w => (Return tt, {| token := t; calls := calls w |}).

(** [token] when [!token] is false: neither [null] nor the empty string. *)
Definition truthy_token (t : option string) : option string :=
  match t with
  | Some s => if String.eqb s "" then None else Some s
  | None => None
  end.

(** ** Property reads on a value *)

(** [v.k] for the property names the client reads ([messages], [code],
    [message], [response], [data]); none of them is on a prototype. *)
Definition prop (v : JS.value) (k : string) : outcome JS.value :=
  match v with
  | JS.VUndefined | JS.VNull => Throw TypeError
  | JS.VObj o => Return (JS.lookup k o)
  | _ => Return JS.VUndefined
  end.

(** [v[0]] *)
Definition first (v : JS.value) : outcome JS.value :=
  match v with
  | JS.VUndefined | JS.VNull => Throw TypeError
  | JS.VArr items => Return (hd JS.VUndefined items)
  | JS.VStr (String c _) => Return (JS.VStr (String c ""))
  | JS.VObj o => Return (JS.lookup "0" o)
  | _ => Return JS.VUndefined
  end.

(** [v.length] *)
Definition length_of (v : JS.value) : outcome JS.value :=
  match v with
  | JS.VUndefined | JS.VNull => Throw TypeError
  | JS.VArr items => Return (JS.VNum (Z.of_nat (List.length items)))
  | JS.VStr s => Return (JS.VNum (Z.of_nat (String.length s)))
  | JS.VObj o => Return (JS.lookup "length" o)
  | _ => Return JS.VUndefined
  end.

Definition obind {A B} (o : outcome A) (k : A -> outcome B) : outcome B :=
  match o with
  | Return a => k a
  | Throw e => Throw e
  end.

(** [respData?.messages?.[0].code ?? "500"]: a nullish [respData] or
    [messages] ends the whole chain with [undefined]; the read of [.code]
    on [messages[0]] is not guarded. *)
Definition error_code (respData : JS.value) : outcome JS.value :=
  if JS.nullish respData then Return (JS.VStr "500")
  else
    obind (prop respData "messages") (fun messages =>
    if JS.nullish messages then Return (JS.VStr "500")
    else
      obind (first messages) (fun m0 =>
      obind (prop m0 "code") (fun code =>
      Return (if JS.nullish code then JS.VStr "500" else code)))).

(** The message of the error thrown for a response that is not [ok]. *)
Definition failure_message (res : Response) (respData : JS.value) : string :=
  "Filemaker Data API failed with (" ++ JS.Number_toString (status res)
  ++ "): " ++ JS.JSON_stringify respData.

(** ** Configuration *)

Inductive Auth : Type :=
| OttoAuth (apiKey : string) (ottoPort : option Z)
| UserPasswordAuth (username password : string).

Record ClientObjectProps : Type := {
  server : string;
  db : string;
  auth : Auth;
  layout : option string
}.

Definition nonempty (s : string) : bool := negb (String.eqb s "").

(** [ZodOptions.strict().parse(input)] on an input of the declared type:
    no key beyond the four, [auth] of one of the two shapes, [ottoPort] an
    integer.  (On other inputs the schema also rejects an unknown key and a
    [NaN] port, and reads an [auth] that fails the first shape by the
    second.) *)
Definition ZodOptions_parse (input : ClientObjectProps) : outcome ClientObjectProps :=
  if String.prefix "http" (server input)
     && nonempty (db input)
     && match auth input with
        | OttoAuth apiKey _ => nonempty apiKey
        | UserPasswordAuth username password =>
            nonempty username && nonempty password
        end
  then Return input
  else Throw ZodError.

(** What the closures of one [DataApi] call share and never reassign. *)
Record Client : Type := {
  options : ClientObjectProps;
  baseUrl : URL
}.

(** ** The client *)

Section DataApi.

(** Whether [new URL(s)] accepts [s] (it throws a [TypeError] otherwise). *)
Variable URL_canParse : string -> bool.

(** [DataApi(input)] up to the definition of its closures: the validated
    options, [baseUrl] and the initial value of [token]. *)
Definition DataApi (input : ClientObjectProps) : outcome (Client * World) :=
  obind (ZodOptions_parse input) (fun options =>
  let href := server options ++ "/fmi/data/vLatest/databases/" ++ db options in
  if negb (URL_canParse href) then Throw TypeError
  else
    let baseUrl := {| href := href; port := None |} in
    let token : option string := None in
    match auth options with
    | OttoAuth apiKey ottoPort =>
        let p := match ottoPort with Some n => n | None => 3030 end in
        Return ({| options := options;
                   baseUrl := URL_set_port baseUrl (JS.Number_toString p) |},
                {| token := Some apiKey; calls := [] |})
    | UserPasswordAuth _ _ =>
        Return ({| options := options; baseUrl := baseUrl |},
                {| token := token; calls := [] |})
    end).

Variable remote : Server.

(** [await fetch(...)] *)
Definition fetch (req : Request) : M Response :=
  fun w =>
    let w' := {| token := token w; calls := calls w ++ [req] |} in
    match remote (calls w) req with
    | Rejected => (Throw FetchError, w')
    | Responded res => (Return res, w')
    end.

Variable c : Client.

(** The login call of [getToken]. *)
Definition login_request (username password : string) : Request :=
  {| method := "POST";
     base := baseUrl c;
     path := "/sessions";
     query := None;
     body := None;
     authorization := Basic username password |}.

(** The block of [getToken] under [if (!token)], followed by its
    [return token]. *)
Definition login (username password : string) : M string :=
  res <- fetch (login_request username password) ;;
  if negb (ok res) then
    match json res with
    | None => throw SyntaxError
    | Some data =>
        code <- lift (obind (prop data "messages") (fun messages =>
                      obind (first messages) (fun m0 => prop m0 "code"))) ;;
        message <- lift (obind (prop data "messages") (fun messages =>
                         obind (first messages) (fun m0 => prop m0 "message"))) ;;
        throw (FileMakerError code message)
    end
  else
    write_token (access_token res) ;;
    match truthy_token (access_token res) with
    | None => throw (JsError "Could not get token")
    | Some t => ret t
    end.

Definition getToken (refresh : bool) : M string :=
  match auth (options c) with
  | OttoAuth apiKey _ => ret apiKey
  | UserPasswordAuth username password =>
      (if refresh then write_token None else ret tt) ;;
      cached <- read_token ;;
      match truthy_token cached with
      | Some t => ret t
      | None => login username password
      end
  end.

(** The argument of [request]. *)
Record RequestParams : Type := {
  rp_url : string;
  rp_body : option JS.obj;
  rp_query : option JS.obj;
  rp_method : option string
}.

(** [try { respData = await res.json() } catch { respData = {} }] *)
Definition respData_of (res : Response) : JS.value :=
  match json res with
  | Some v => v
  | None => JS.VObj []
  end.

(** What [request] and [disconnect] do with the response of their call. *)
Definition unwrap (res : Response) : M JS.value :=
  let respData := respData_of res in
  if negb (ok res) then
    code <- lift (error_code respData) ;;
    throw (FileMakerError code (JS.VStr (failure_message res respData)))
  else lift (prop respData "response").

(** The call [request] makes once it holds a token. *)
Definition request_call (params : RequestParams) (token : string) : Request :=
  {| method := match rp_method params with Some m => m | None => "POST" end;
     base := baseUrl c;
     path := rp_url params;
     query := rp_query params;
     body := rp_body params;
     authorization := Bearer token |}.

Definition request (params : RequestParams) : M JS.value :=
  token <- getToken false ;;
  res <- fetch (request_call params token) ;;
  unwrap res.

(** [layout = options.layout] in the destructuring of [args]. *)
Definition layout_of (args : JS.obj) : JS.value :=
  match JS.lookup "layout" args with
  | JS.VUndefined =>
      match layout (options c) with
      | Some l => JS.VStr l
      | None => JS.VUndefined
      end
  | l => l
  end.

(** [if (!!params[k]) delete Object.assign(params, { [k']: v })[k]] where
    [v] is computed from [params[k]]. *)
Definition rename (k k' : string) (f : JS.value -> JS.value) (params : JS.obj) : JS.obj :=
  if JS.truthy (JS.lookup k params)
  then JS.delete k (JS.set k' (f (JS.lookup k params)) params)
  else params.

Definition wrap_sort (sort : JS.value) : JS.value :=
  if JS.isArray sort then sort else JS.VArr [sort].

(** The query that [list] hands to [request]. *)
Definition list_query (args : JS.obj) : JS.obj :=
  let params := JS.rest ["layout"] args in
  let params := rename "limit" "_limit" (fun v => v) params in
  let params := rename "offset" "_offset" (fun v => v) params in
  let params := rename "sort" "_sort" wrap_sort params in
  params.

Definition list (args : JS.obj) : M JS.value :=
  request {| rp_url := "/layouts/" ++ JS.ToString (layout_of args) ++ "/records";
             rp_method := Some "GET";
             rp_query := Some (list_query args);
             rp_body := None |}.

Definition create (args : JS.obj) : M JS.value :=
  let fieldData := JS.lookup "fieldData" args in
  let params := JS.rest ["fieldData"; "layout"] args in
  request {| rp_url := "/layouts/" ++ JS.ToString (layout_of args) ++ "/records";
             rp_body := Some (JS.spread [("fieldData", fieldData)] params);
             rp_query := None;
             rp_method := None |}.

Definition get (args : JS.obj) : M JS.value :=
  let recordId := JS.lookup "recordId" args in
  let params := JS.rest ["recordId"; "layout"] args in
  request {| rp_url := "/layouts/" ++ JS.ToString (layout_of args)
                       ++ "/records/" ++ JS.ToString recordId;
             rp_method := Some "GET";
             rp_query := Some params;
             rp_body := None |}.

Definition update (args : JS.obj) : M JS.value :=
  let recordId := JS.lookup "recordId" args in
  let fieldData := JS.lookup "fieldData" args in
  let params := JS.rest ["recordId"; "fieldData"; "layout"] args in
  request {| rp_url := "/layouts/" ++ JS.ToString (layout_of args)
                       ++ "/records/" ++ JS.ToString recordId;
             rp_body := Some (JS.spread [("fieldData", fieldData)] params);
             rp_method := Some "PATCH";
             rp_query := None |}.

Definition deleteRecord (args : JS.obj) : M JS.value :=
  let recordId := JS.lookup "recordId" args in
  let params := JS.rest ["recordId"; "layout"] args in
  request {| rp_url := "/layouts/" ++ JS.ToString (layout_of args)
                       ++ "/records/" ++ JS.ToString recordId;
             rp_query := Some params;
             rp_method := Some "DELETE";
             rp_body := None |}.

Definition metadata (args : JS.obj) : M JS.value :=
  request {| rp_method := Some "GET";
             rp_url := "/layouts/" ++ JS.ToString (layout_of args);
             rp_query := None;
             rp_body := None |}.

(** The [DELETE] call of [disconnect]. *)
Definition logout_request (token : string) : Request :=
  {| method := "DELETE";
     base := baseUrl c;
     path := "/sessions/" ++ token;
     query := None;
     body := None;
     authorization := Bearer token |}.

(** The error [disconnect] throws under an API key. *)
Definition contract_violation : error :=
  JsError "Cannot disconnect when using Otto API key.".

Definition disconnect : M JS.value :=
  match auth (options c) with
  | OttoAuth _ _ => throw contract_violation
  | UserPasswordAuth _ _ =>
      token <- getToken false ;;
      res <- fetch (logout_request token) ;;
      unwrap res
  end.

(** The handler [find] attaches to its [request]. *)
Definition find_handler (ignoreEmptyResult : JS.value) (e : error) : M JS.value :=
  match e with
  | FileMakerError code _ =>
      if JS.truthy ignoreEmptyResult && JS.strict_eq_str code "401"
      then ret (JS.VObj [("data", JS.VArr [])])
      else throw e
  | _ => throw e
  end.

(** The value of [ignoreEmptyResult] after the destructuring default. *)
Definition ignoreEmptyResult_of (args : JS.obj) : JS.value :=
  match JS.lookup "ignoreEmptyResult" args with
  | JS.VUndefined => JS.VBool false
  | v => v
  end.

(** The call [find] hands to [request]. *)
Definition find_params (args : JS.obj) : RequestParams :=
  let queryInput := JS.lookup "query" args in
  let params := JS.rest ["query"; "layout"; "ignoreEmptyResult"] args in
  let query := if negb (JS.isArray queryInput) then JS.VArr [queryInput] else queryInput in
  {| rp_url := "/layouts/" ++ JS.ToString (layout_of args) ++ "/_find";
     rp_body := Some (JS.spread [("query", query)] params);
     rp_method := Some "POST";
     rp_query := None |}.

Definition find (args : JS.obj) : M JS.value :=
  catch (request (find_params args)) (find_handler (ignoreEmptyResult_of args)).

Definition findOne (args : JS.obj) : M JS.value :=
  res <- find args ;;
  data <- lift (prop res "data") ;;
  len <- lift (length_of data) ;;
  if negb (JS.strict_eq_num len 1)
  then throw (JsError (JS.ToString len ++ " records found; expecting exactly 1"))
  else
    data0 <- lift (first data) ;;
    ret (JS.VObj (JS.set "data" data0 (JS.own_props res))).

Definition findFirst (args : JS.obj) : M JS.value :=
  res <- find args ;;
  data <- lift (prop res "data") ;;
  data0 <- lift (first data) ;;
  ret (JS.VObj (JS.set "data" data0 (JS.own_props res))).

End DataApi.

(** ** Sample configurations and servers *)

Module Sample.

Definition canParse (s : string) : bool := true.

Definition otto_props : ClientObjectProps :=
  {| server := "https://fm.example.com";
     db := "Sales";
     auth := OttoAuth "KEY_abc123" None;
     layout := Some "Customers" |}.

Definition user_props : ClientObjectProps :=
  {| server := "https://fm.example.com";
     db := "Sales";
     auth := UserPasswordAuth "admin" "secret";
     layout := Some "Customers" |}.

Definition otto : Client :=
  {| options := otto_props;
     baseUrl := {| href := "https://fm.example.com/fmi/data/vLatest/databases/Sales";
                   port := Some "3030" |} |}.

Definition user : Client :=
  {| options := user_props;
     baseUrl := {| href := "https://fm.example.com/fmi/data/vLatest/databases/Sales";
                   port := None |} |}.

Definition fresh : World := {| token := None; calls := [] |}.

Definition logged_in : World := {| token := Some "tok-0"; calls := [] |}.

Definition envelope (response : JS.value) (code message : string) : JS.value :=
  JS.VObj [("response", response);
           ("messages", JS.VArr [JS.VObj [("code", JS.VStr code);
                                          ("message", JS.VStr message)]])].

Definition record (id : Z) (name : string) : JS.value :=
  JS.VObj [("fieldData", JS.VObj [("Name", JS.VStr name)]);
           ("recordId", JS.VStr (JS.Number_toString id))].

(** Answers a login with the token [tok-1] and every other call with
    [response]. *)
Definition serving (response : JS.value) : Server :=
  fun _ req =>
    if String.eqb (path req) "/sessions"
    then Responded {| status := 200;
                      json := Some (envelope (JS.VObj []) "0" "OK");
                      access_token := Some "tok-1" |}
    else Responded {| status := 200;
                      json := Some (envelope response "0" "OK");
                      access_token := None |}.

(** Answers every call with the given status and body. *)
Definition failing (status : Z) (body : option JS.value) : Server :=
  fun _ _ => Responded {| status := status; json := body; access_token := None |}.

Definition no_records : Server :=
  failing 500 (Some (envelope (JS.VObj []) "401" "No records match the request")).

(** The response [failing status body] gives. *)
Definition answer (status : Z) (body : option JS.value) : Response :=
  {| status := status; json := body; access_token := None |}.

(** Refuses every call the way the server refuses a wrong password. *)
Definition refusing : Server :=
  failing 401 (Some (envelope (JS.VObj []) "212" "Invalid user account")).

(** A failure whose envelope reports nothing. *)
Definition empty_messages : JS.value :=
  JS.VObj [("messages", JS.VArr []); ("response", JS.VObj [])].

(** The world right after [DataApi(otto_props)]. *)
Definition keyed : World := {| token := Some "KEY_abc123"; calls := [] |}.

(** [{ query: { Name: "Nobody" }, ignoreEmptyResult }] *)
Definition find_args (ignoreEmptyResult : bool) : JS.obj :=
  [("query", JS.VObj [("Name", JS.VStr "Nobody")]);
   ("ignoreEmptyResult", JS.VBool ignoreEmptyResult)].

(** [{ recordId: 7, layout: "Orders", "layout.response": "Web" }] *)
Definition get_args : JS.obj :=
  [("recordId", JS.VNum 7); ("layout", JS.VStr "Orders");
   ("layout.response", JS.VStr "Web")].

(** [{ recordId: 7, fieldData: { Name: "Ann" }, modId: 3 }] *)
Definition update_args : JS.obj :=
  [("recordId", JS.VNum 7);
   ("fieldData", JS.VObj [("Name", JS.VStr "Ann")]);
   ("modId", JS.VNum 3)].

(** [otto_props] with an [ottoPort]. *)
Definition otto_port (p : Z) : ClientObjectProps :=
  {| server := "https://fm.example.com";
     db := "Sales";
     auth := OttoAuth "KEY_abc123" (Some p);
     layout := Some "Customers" |}.

(** A client without a default layout. *)
Definition bare : Client :=
  {| options := {| server := "https://fm.example.com"; db := "Sales";
                   auth := OttoAuth "KEY_abc123" None; layout := None |};
     baseUrl := {| href := "https://fm.example.com/fmi/data/vLatest/databases/Sales";
                   port := Some "3030" |} |}.

(** The [response] of a find that matched [records]. *)
Definition found (records : Datatypes.list JS.value) : JS.value :=
  JS.VObj [("data", JS.VArr records)].

Definition records_call : RequestParams :=
  {| rp_url := "/layouts/Customers/records";
     rp_body := None;
     rp_query := Some [];
     rp_method := Some "GET" |}.

End Sample.

(** ** Notions the properties are stated with *)

(** The token that [getToken()] hands out without a call: the API key, or
    the token in the cache. *)
Definition holds_token (c : Client) (w : World) (t : string) : Prop :=
  match auth (options c) with
  | OttoAuth apiKey _ => t = apiKey
  | UserPasswordAuth _ _ => truthy_token (token w) = Some t
  end.

(** The world after one more call. *)
Definition after_call (w : World) (req : Request) : World :=
  {| token := token w; calls := (calls w ++ [req])%list |}.

(** An argument object names each of its keys once. *)
Definition is_object (o : JS.obj) : Prop := NoDup (map fst o).

(** What [ZodOptions] asks of an input. *)
Definition well_formed (input : ClientObjectProps) : Prop :=
  String.prefix "http" (server input) = true
  /\ db input <> ""
  /\ match auth input with
     | OttoAuth apiKey _ => apiKey <> ""
     | UserPasswordAuth username password => username <> "" /\ password <> ""
     end.

(** * Properties *)

(** ** Token manager *)

(** C2. With an API key, [getToken] returns the configured key whatever
    [refresh] is, and leaves the world as it was: no [fetch] call is made and
    the [token] variable is not assigned. *)
Theorem getToken_apiKey :
  forall remote c apiKey ottoPort refresh w,
    auth (options c) = OttoAuth apiKey ottoPort ->
    getToken remote c refresh w = (Return apiKey, w).
Proof.
  intros remote c apiKey ottoPort refresh w Hauth.
  unfold getToken. rewrite Hauth. reflexivity.
Qed.

Lemma getToken_apiKey_witness :
  getToken (Sample.failing 500 None) Sample.otto true Sample.fresh
  = (Return "KEY_abc123", Sample.fresh)
  /\ getToken (Sample.failing 500 None) Sample.otto false Sample.logged_in
     = (Return "KEY_abc123", Sample.logged_in).
Proof.
  split; apply (getToken_apiKey _ Sample.otto "KEY_abc123" None); reflexivity.
Defined.

(** *** Stepping through a computation *)

Lemma bind_Return :
  forall A B (m : M A) (k : A -> M B) w a w1,
    m w = (Return a, w1) -> bind m k w = k a w1.
Proof. intros A B m k w a w1 H. unfold bind. rewrite H. reflexivity. Qed.

Lemma bind_Throw :
  forall A B (m : M A) (k : A -> M B) w e w1,
    m w = (Throw e, w1) -> bind m k w = (Throw e, w1).
Proof. intros A B m k w e w1 H. unfold bind. rewrite H. reflexivity. Qed.

Lemma bind_inv_Return :
  forall A B (m : M A) (k : A -> M B) w b w2,
    bind m k w = (Return b, w2) ->
    exists a w1, m w = (Return a, w1) /\ k a w1 = (Return b, w2).
Proof.
  intros A B m k w b w2 H. unfold bind in H.
  destruct (m w) as [[a|e] w1]; [|discriminate].
  exists a, w1. split; [reflexivity|exact H].
Qed.

Lemma bind_inv_Throw :
  forall A B (m : M A) (k : A -> M B) w e w2,
    bind m k w = (Throw e, w2) ->
    m w = (Throw e, w2)
    \/ exists a w1, m w = (Return a, w1) /\ k a w1 = (Throw e, w2).
Proof.
  intros A B m k w e w2 H. unfold bind in H.
  destruct (m w) as [[a|e1] w1].
  - right. exists a, w1. split; [reflexivity|exact H].
  - left. injection H as -> ->. reflexivity.
Qed.

(** [fetch] logs its call whatever the outcome. *)
Lemma fetch_calls :
  forall remote req w,
    calls (snd (fetch remote req w)) = (calls w ++ [req])%list
    /\ token (snd (fetch remote req w)) = token w.
Proof.
  intros remote req w. unfold fetch.
  destruct (remote (calls w) req); split; reflexivity.
Qed.

Lemma fetch_inv_Return :
  forall remote req w res w1,
    fetch remote req w = (Return res, w1) ->
    remote (calls w) req = Responded res
    /\ w1 = {| token := token w; calls := (calls w ++ [req])%list |}.
Proof.
  intros remote req w res w1 H. unfold fetch in H.
  destruct (remote (calls w) req); [discriminate|].
  injection H as <- <-. split; reflexivity.
Qed.

Lemma fetch_inv_Throw :
  forall remote req w e w1,
    fetch remote req w = (Throw e, w1) ->
    e = FetchError
    /\ w1 = {| token := token w; calls := (calls w ++ [req])%list |}.
Proof.
  intros remote req w e w1 H. unfold fetch in H.
  destruct (remote (calls w) req); [|discriminate].
  injection H as <- <-. split; reflexivity.
Qed.

Ltac run :=
  cbv beta iota delta
    [bind ret throw catch lift read_token write_token fetch] in *;
  cbn [token calls fst snd] in *.

(** A token that passes [!token] is a cached, non-empty string. *)
Lemma truthy_token_Some :
  forall cell t, truthy_token cell = Some t -> cell = Some t /\ t <> "".
Proof.
  intros [s|] t H; cbn in H; [|discriminate].
  destruct (String.eqb_spec s "") as [E|E]; [discriminate|].
  injection H as <-. split; [reflexivity|assumption].
Qed.

Lemma truthy_token_nonempty :
  forall t, t <> "" -> truthy_token (Some t) = Some t.
Proof.
  intros t Hne. cbn. apply String.eqb_neq in Hne. rewrite Hne. reflexivity.
Qed.

(** A property read fails in one way only. *)
Lemma prop_throws : forall v k e, prop v k = Throw e -> e = TypeError.
Proof. intros [] k e H; cbn in H; congruence. Qed.

Lemma first_throws : forall v e, first v = Throw e -> e = TypeError.
Proof. intros [| | | |[|]| |] e H; cbn in H; congruence. Qed.

Lemma length_of_throws : forall v e, length_of v = Throw e -> e = TypeError.
Proof. intros [] e H; cbn in H; congruence. Qed.

Lemma chain_throws :
  forall data k e,
    obind (prop data "messages") (fun messages =>
      obind (first messages) (fun m0 => prop m0 k)) = Throw e ->
    e = TypeError.
Proof.
  intros data k e H.
  destruct (prop data "messages") as [messages|e1] eqn:H1; cbn in H.
  - destruct (first messages) as [m0|e2] eqn:H2; cbn in H.
    + eapply prop_throws; eassumption.
    + injection H as <-. eapply first_throws; eassumption.
  - injection H as <-. eapply prop_throws; eassumption.
Qed.

(** *** The login block *)

Section Login.

Variable remote : Server.
Variable c : Client.
Variables username password : string.

Let req : Request := login_request c username password.

(** One call is made, whatever comes back. *)
Lemma login_calls :
  forall w,
    calls (snd (login remote c username password w))
    = (calls w ++ [req])%list.
Proof.
  intros w. unfold login. run.
  destruct (remote (calls w) _) as [|res]; cbn; [reflexivity|].
  destruct (ok res); cbn.
  - destruct (truthy_token (access_token res)); reflexivity.
  - destruct (json res) as [data|]; cbn; [|reflexivity].
    destruct (obind (prop data "messages") _); cbn; [|reflexivity].
    destruct (obind (prop data "messages") _); reflexivity.
Qed.

(** A response that is [ok] and carries a token yields it and caches it. *)
Lemma login_Return :
  forall w res t,
    remote (calls w) req = Responded res ->
    ok res = true -> access_token res = Some t -> t <> "" ->
    login remote c username password w
    = (Return t, {| token := Some t; calls := (calls w ++ [req])%list |}).
Proof.
  intros w res t Hres Hok Htok Hne. unfold login. run.
  fold req. rewrite Hres. cbn. rewrite Hok. cbn. rewrite Htok.
  rewrite (truthy_token_nonempty _ Hne). reflexivity.
Qed.

Lemma login_inv_Return :
  forall w t w1,
    login remote c username password w = (Return t, w1) ->
    w1 = {| token := Some t; calls := (calls w ++ [req])%list |}
    /\ t <> ""
    /\ exists res, remote (calls w) req = Responded res
                   /\ ok res = true /\ access_token res = Some t.
Proof.
  intros w t w1 H. unfold login in H. run. fold req in H.
  destruct (remote (calls w) req) as [|res] eqn:Hres; [discriminate|].
  cbn in H. destruct (ok res) eqn:Hok; cbn in H.
  - destruct (truthy_token (access_token res)) as [t1|] eqn:Hnew;
      [|discriminate].
    injection H as <- <-.
    apply truthy_token_Some in Hnew as [Hnew Hne]. rewrite Hnew.
    repeat split; try assumption.
    exists res. repeat split; assumption.
  - destruct (json res) as [data|]; cbn in H; [|discriminate].
    destruct (obind (prop data "messages") _); cbn in H; [|discriminate].
    destruct (obind (prop data "messages") _); discriminate.
Qed.

Lemma login_inv_Throw :
  forall w e w1,
    login remote c username password w = (Throw e, w1) ->
    e = FetchError \/ e = SyntaxError \/ e = TypeError
    \/ e = JsError "Could not get token"
    \/ exists code message, e = FileMakerError code message.
Proof.
  intros w e w1 H. unfold login in H. run. fold req in H.
  destruct (remote (calls w) req) as [|res] eqn:Hres.
  { injection H as <- _. auto. }
  cbn in H. destruct (ok res) eqn:Hok; cbn in H.
  - destruct (truthy_token (access_token res)) as [t1|]; [discriminate|].
    injection H as <- _. auto 6.
  - destruct (json res) as [data|]; cbn in H.
    2: { injection H as <- _. auto. }
    destruct (obind (prop data "messages") _) as [code|e1] eqn:H1; cbn in H.
    2: { injection H as <- _. apply chain_throws in H1. auto. }
    destruct (obind (prop data "messages") _) as [message|e2] eqn:H2 in H.
    + injection H as <- _. right. right. right. right. eauto.
    + injection H as <- _. apply chain_throws in H2. auto.
Qed.

End Login.

(** How [getToken()] returns under user name and password: from the cache,
    or from one login whose response carries the token. *)
Lemma getToken_returns_from :
  forall remote c username password w t w1,
    auth (options c) = UserPasswordAuth username password ->
    getToken remote c false w = (Return t, w1) ->
    let req := login_request c username password in
    (truthy_token (token w) = Some t /\ w1 = w)
    \/ (truthy_token (token w) = None
        /\ w1 = {| token := Some t; calls := (calls w ++ [req])%list |}
        /\ t <> ""
        /\ exists res, remote (calls w) req = Responded res
                       /\ ok res = true /\ access_token res = Some t).
Proof.
  intros remote c username password w t w1 Hauth Hrun req. subst req.
  unfold getToken in Hrun. rewrite Hauth in Hrun.
  cbv beta iota delta [bind ret read_token] in Hrun.
  destruct (truthy_token (token w)) as [t0|] eqn:Hcell.
  - left. injection Hrun as <- <-. split; reflexivity.
  - right. apply login_inv_Return in Hrun as (Hw & Hne & Hres).
    repeat split; assumption.
Qed.

(** After a [getToken()] that returned, the returned token is the cached
    one. *)
Lemma getToken_returns_cached :
  forall remote c username password w t w1,
    auth (options c) = UserPasswordAuth username password ->
    getToken remote c false w = (Return t, w1) ->
    token w1 = Some t /\ t <> "".
Proof.
  intros remote c username password w t w1 Hauth Hrun.
  destruct (getToken_returns_from _ _ _ _ _ _ _ Hauth Hrun)
    as [[Hcell ->] | (_ & -> & Hne & _)].
  - apply truthy_token_Some. assumption.
  - split; [reflexivity|assumption].
Qed.

(** A second [getToken()] right after one that returned is served from the
    cache: same token, same world. *)
Lemma getToken_again :
  forall remote c username password w t w1,
    auth (options c) = UserPasswordAuth username password ->
    getToken remote c false w = (Return t, w1) ->
    getToken remote c false w1 = (Return t, w1).
Proof.
  intros remote c username password w t w1 Hauth Hrun.
  destruct (getToken_returns_cached _ _ _ _ _ _ _ Hauth Hrun) as [Hcell Hne].
  unfold getToken. rewrite Hauth.
  cbv beta iota delta [bind ret read_token].
  rewrite Hcell, (truthy_token_nonempty _ Hne). reflexivity.
Qed.

(** The errors of [getToken] under user name and password. *)
Lemma getToken_throws_only :
  forall remote c username password refresh w e w1,
    auth (options c) = UserPasswordAuth username password ->
    getToken remote c refresh w = (Throw e, w1) ->
    e = FetchError \/ e = SyntaxError \/ e = TypeError
    \/ e = JsError "Could not get token"
    \/ exists code message, e = FileMakerError code message.
Proof.
  intros remote c username password refresh w e w1 Hauth Hrun.
  unfold getToken in Hrun. rewrite Hauth in Hrun.
  cbv beta iota delta [bind ret read_token write_token] in Hrun.
  destruct refresh; cbn [token calls] in Hrun.
  - cbn [truthy_token] in Hrun. eapply login_inv_Throw; eassumption.
  - destruct (truthy_token (token w)); [discriminate|].
    eapply login_inv_Throw; eassumption.
Qed.

(** C1. With a user name and password: a call without [refresh] while a
    token is cached returns that token and leaves the world as it was (no
    call is made); a call with [refresh] behaves as if no token had been
    cached, makes exactly one call, the login, and when that login yields a
    token, caches and returns it. *)
Theorem getToken_credentials :
  forall remote c username password w,
    auth (options c) = UserPasswordAuth username password ->
    let req := login_request c username password in
    (forall t, token w = Some t -> t <> "" ->
       getToken remote c false w = (Return t, w))
    /\ getToken remote c true w
       = getToken remote c true {| token := None; calls := calls w |}
    /\ calls (snd (getToken remote c true w)) = (calls w ++ [req])%list
    /\ (forall res t,
          remote (calls w) req = Responded res ->
          ok res = true -> access_token res = Some t -> t <> "" ->
          getToken remote c true w
          = (Return t, {| token := Some t; calls := (calls w ++ [req])%list |})).
Proof.
  intros remote c username password w Hauth req.
  unfold getToken. rewrite Hauth. subst req.
  cbv beta iota delta [bind ret read_token write_token].
  cbn [token calls truthy_token].
  split; [|split; [reflexivity|split]].
  - intros t Ht Hne. rewrite Ht, (truthy_token_nonempty _ Hne). reflexivity.
  - apply (login_calls remote c username password
             {| token := None; calls := calls w |}).
  - intros res t Hres Hok Htok Hne.
    apply (login_Return remote c username password
             {| token := None; calls := calls w |} res t); assumption.
Qed.

Lemma getToken_credentials_witness :
  getToken (Sample.serving JS.VNull) Sample.user false Sample.logged_in
  = (Return "tok-0", Sample.logged_in)
  /\ getToken (Sample.serving JS.VNull) Sample.user true Sample.logged_in
     = (Return "tok-1",
        {| token := Some "tok-1";
           calls := [login_request Sample.user "admin" "secret"] |}).
Proof.
  destruct (getToken_credentials (Sample.serving JS.VNull) Sample.user
              "admin" "secret" Sample.logged_in eq_refl)
    as (Hhit & _ & _ & Hnew).
  split.
  - apply Hhit; [reflexivity | discriminate].
  - eapply (Hnew _ "tok-1"); [reflexivity | reflexivity | reflexivity | discriminate].
Defined.

(** ** Request dispatcher *)

(** [unwrap] reads the response and leaves the world alone. *)
Lemma unwrap_world : forall res w, snd (unwrap res w) = w.
Proof.
  intros res w. unfold unwrap. run.
  destruct (negb (ok res)).
  - destruct (error_code _); reflexivity.
  - reflexivity.
Qed.

(** A response that is not [ok] never yields a value. *)
Lemma unwrap_not_ok :
  forall res w,
    ok res = false ->
    unwrap res w
    = (match error_code (respData_of res) with
       | Return code =>
           Throw (FileMakerError code
                    (JS.VStr (failure_message res (respData_of res))))
       | Throw e => Throw e
       end, w).
Proof.
  intros res w Hok. unfold unwrap. rewrite Hok. run. cbn.
  destruct (error_code _); reflexivity.
Qed.

Lemma unwrap_ok :
  forall res w,
    ok res = true -> unwrap res w = (prop (respData_of res) "response", w).
Proof. intros res w Hok. unfold unwrap. rewrite Hok. reflexivity. Qed.

Lemma error_code_throws :
  forall respData e, error_code respData = Throw e -> e = TypeError.
Proof.
  intros respData e H. unfold error_code in H.
  destruct (JS.nullish respData); [discriminate|].
  destruct (prop respData "messages") as [messages|e1] eqn:H1; cbn in H.
  2: { injection H as <-. eapply prop_throws; eassumption. }
  destruct (JS.nullish messages); [discriminate|].
  destruct (first messages) as [m0|e2] eqn:H2; cbn in H.
  2: { injection H as <-. eapply first_throws; eassumption. }
  destruct (prop m0 "code") as [code|e3] eqn:H3; cbn in H; [discriminate|].
  injection H as <-. eapply prop_throws; eassumption.
Qed.

(** The errors of [unwrap]: a [FileMakerError] with the failure message, or
    the [TypeError] of an unguarded property read. *)
Lemma unwrap_inv_Throw :
  forall res w e w1,
    unwrap res w = (Throw e, w1) ->
    w1 = w
    /\ (e = TypeError
        \/ exists code,
             e = FileMakerError code
                   (JS.VStr (failure_message res (respData_of res)))).
Proof.
  intros res w e w1 H. destruct (ok res) eqn:Hok.
  - rewrite (unwrap_ok _ _ Hok) in H. injection H as H <-.
    split; [reflexivity|]. left. eapply prop_throws; eassumption.
  - rewrite (unwrap_not_ok _ _ Hok) in H.
    destruct (error_code (respData_of res)) as [code|e1] eqn:Hcode;
      injection H as <- <-; (split; [reflexivity|]).
    + right. exists code. reflexivity.
    + left. eapply error_code_throws; eassumption.
Qed.

(** One run of [request] past the token: the call is logged and the
    response unwrapped. *)
Lemma request_run :
  forall remote c params w t w1 res,
    getToken remote c false w = (Return t, w1) ->
    remote (calls w1) (request_call c params t) = Responded res ->
    request remote c params w
    = (fst (unwrap res w1),
       {| token := token w1;
          calls := (calls w1 ++ [request_call c params t])%list |}).
Proof.
  intros remote c params w t w1 res Htok Hres. unfold request.
  rewrite (bind_Return _ _ _ _ _ _ _ Htok).
  unfold bind at 1. unfold fetch. rewrite Hres.
  pose proof (unwrap_world res
    {| token := token w1;
       calls := (calls w1 ++ [request_call c params t])%list |}) as Hw.
  destruct (unwrap res {| token := token w1; calls := _ |}) as [o w2] eqn:Hu.
  cbn in Hw. subst w2. f_equal.
  unfold unwrap in *. run.
  destruct (negb (ok res)).
  - destruct (error_code _); cbn in *; congruence.
  - cbn in *. congruence.
Qed.

(** The sentinel: an unparsable body is read as [{}], which has no
    [messages]. *)
Lemma error_code_unparsable :
  forall res, json res = None -> error_code (respData_of res) = Return (JS.VStr "500").
Proof. intros res H. unfold respData_of. rewrite H. reflexivity. Qed.

(** No [messages] in the body: the sentinel. *)
Lemma error_code_no_messages :
  forall props,
    JS.nullish (JS.lookup "messages" props) = true ->
    error_code (JS.VObj props) = Return (JS.VStr "500").
Proof. intros props H. unfold error_code. cbn. rewrite H. reflexivity. Qed.

(** A first message that is an object: its [code], or the sentinel when it
    has none. *)
Lemma error_code_first_message :
  forall props m others,
    JS.lookup "messages" props = JS.VArr (JS.VObj m :: others) ->
    error_code (JS.VObj props)
    = Return (if JS.nullish (JS.lookup "code" m)
              then JS.VStr "500"
              else JS.lookup "code" m).
Proof. intros props m others H. unfold error_code. cbn. rewrite H. reflexivity. Qed.

(** An empty [messages] array: the read of [.code] on [undefined] throws. *)
Lemma error_code_empty_messages :
  forall props,
    JS.lookup "messages" props = JS.VArr [] ->
    error_code (JS.VObj props) = Throw TypeError.
Proof. intros props H. unfold error_code. cbn. rewrite H. reflexivity. Qed.

(** A response that is not [ok] and whose body does not parse fails with a
    [FileMakerError] of code ["500"] whose message carries the status and the
    printed [{}]. *)
Lemma request_unparsable_failure :
  forall remote c params w t w1 res,
    getToken remote c false w = (Return t, w1) ->
    remote (calls w1) (request_call c params t) = Responded res ->
    ok res = false ->
    json res = None ->
    fst (request remote c params w)
    = Throw (FileMakerError (JS.VStr "500")
               (JS.VStr ("Filemaker Data API failed with ("
                         ++ JS.Number_toString (status res) ++ "): {}"))).
Proof.
  intros remote c params w t w1 res Htok Hres Hok Hjson.
  rewrite (request_run _ _ _ _ _ _ _ Htok Hres). cbn [fst].
  rewrite (unwrap_not_ok _ _ Hok), (error_code_unparsable _ Hjson). cbn [fst].
  unfold failure_message, respData_of. rewrite Hjson. reflexivity.
Qed.

(** C9. There are responses outside the 2xx range with a body that parses,
    namely every one whose [messages] is an empty array, on which [request]
    fails with a [TypeError] (the read of [.code] on [undefined]) and not
    with a [FileMakerError]. *)
Theorem request_empty_messages_TypeError :
  forall remote c params w t w1 res props,
    getToken remote c false w = (Return t, w1) ->
    remote (calls w1) (request_call c params t) = Responded res ->
    ok res = false ->
    json res = Some (JS.VObj props) ->
    JS.lookup "messages" props = JS.VArr [] ->
    request remote c params w
    = (Throw TypeError,
       {| token := token w1;
          calls := (calls w1 ++ [request_call c params t])%list |}).
Proof.
  intros remote c params w t w1 res props Htok Hres Hok Hjson Hmsgs.
  rewrite (request_run _ _ _ _ _ _ _ Htok Hres). f_equal.
  rewrite (unwrap_not_ok _ _ Hok). cbn [fst].
  unfold respData_of. rewrite Hjson.
  rewrite (error_code_empty_messages _ Hmsgs). reflexivity.
Qed.

Lemma request_empty_messages_TypeError_witness :
  request (Sample.failing 500 (Some Sample.empty_messages))
    Sample.otto Sample.records_call Sample.keyed
  = (Throw TypeError,
     {| token := Some "KEY_abc123";
        calls := [request_call Sample.otto Sample.records_call "KEY_abc123"] |}).
Proof.
  apply (request_empty_messages_TypeError
           (Sample.failing 500 (Some Sample.empty_messages))
           Sample.otto Sample.records_call Sample.keyed "KEY_abc123" Sample.keyed
           {| status := 500; json := Some Sample.empty_messages;
              access_token := None |}
           [("messages", JS.VArr []); ("response", JS.VObj [])]);
    reflexivity.
Defined.

(** C3. At a response of status 400 whose body is
    [{"messages": [], "response": {}}], [request] does not fail with a
    [FileMakerError] of code ["500"]: it throws the [TypeError] of reading
    [.code] on [undefined]. *)
Example request_status_400_empty_messages :
  fst (request (Sample.failing 400 (Some Sample.empty_messages))
         Sample.user Sample.records_call Sample.logged_in)
  = Throw TypeError.
Proof. reflexivity. Qed.

(** ** Session teardown *)

(** C7. With an API key, [disconnect] throws its own [Error] at once: the
    world is as before, so no call was made and no token acquired.  With a
    user name and password it never throws that error. *)
Theorem disconnect_apiKey :
  forall remote c w,
    (forall apiKey ottoPort,
       auth (options c) = OttoAuth apiKey ottoPort ->
       disconnect remote c w = (Throw contract_violation, w))
    /\ (forall username password,
          auth (options c) = UserPasswordAuth username password ->
          fst (disconnect remote c w) <> Throw contract_violation).
Proof.
  intros remote c w. split.
  - intros apiKey ottoPort Hauth. unfold disconnect. rewrite Hauth. reflexivity.
  - intros username password Hauth. unfold disconnect. rewrite Hauth.
    destruct (bind _ _ w) as [[v|e] w2] eqn:Hrun; cbn; [discriminate|].
    apply bind_inv_Throw in Hrun as [Htok | (t & w1 & Htok & Hrun)].
    + apply (getToken_throws_only _ _ _ _ _ _ _ _ Hauth) in Htok
        as [-> | [-> | [-> | [-> | (code & message & ->)]]]];
        discriminate.
    + apply bind_inv_Throw in Hrun as [Hf | (res & w1' & Hf & Hrun)].
      * apply fetch_inv_Throw in Hf as [-> _]. discriminate.
      * apply unwrap_inv_Throw in Hrun as [_ [-> | (code & ->)]];
          discriminate.
Qed.

Lemma disconnect_apiKey_witness :
  disconnect (Sample.serving JS.VNull) Sample.otto Sample.keyed
  = (Throw contract_violation, Sample.keyed)
  /\ fst (disconnect (Sample.serving JS.VNull) Sample.user Sample.fresh)
     <> Throw contract_violation.
Proof.
  split.
  - apply (proj1 (disconnect_apiKey (Sample.serving JS.VNull) Sample.otto
                    Sample.keyed) "KEY_abc123" None).
    reflexivity.
  - apply (proj2 (disconnect_apiKey (Sample.serving JS.VNull) Sample.user
                    Sample.fresh) "admin" "secret").
    reflexivity.
Defined.

(** C8. With a user name and password, a [disconnect] that succeeds used a
    token [t]: the cached one, in which case its only call is the [DELETE]
    of [/sessions/t] authorised with [t]; or, with nothing cached, the one
    obtained by a login ([POST] of [/sessions] with the user name and
    password) made first.  Either way [token] still holds [t] afterwards. *)
Theorem disconnect_credentials :
  forall remote c username password w v w',
    auth (options c) = UserPasswordAuth username password ->
    disconnect remote c w = (Return v, w') ->
    exists t,
      let deletion :=
        {| method := "DELETE"; base := baseUrl c;
           path := "/sessions/" ++ t; query := None; body := None;
           authorization := Bearer t |} in
      let login :=
        {| method := "POST"; base := baseUrl c;
           path := "/sessions"; query := None; body := None;
           authorization := Basic username password |} in
      token w' = Some t /\ t <> ""
      /\ match truthy_token (token w) with
         | Some t0 =>
             t0 = t /\ token w' = token w
             /\ calls w' = (calls w ++ [deletion])%list
         | None =>
             calls w' = (calls w ++ [login; deletion])%list
         end.
Proof.
  intros remote c username password w v w' Hauth Hrun.
  unfold disconnect in Hrun. rewrite Hauth in Hrun.
  apply bind_inv_Return in Hrun as (t & w1 & Htok & Hrun).
  apply bind_inv_Return in Hrun as (res & w2 & Hf & Hrun).
  apply fetch_inv_Return in Hf as [_ ->].
  pose proof (unwrap_world res
    {| token := token w1;
       calls := (calls w1 ++ [logout_request c t])%list |}) as Hw.
  rewrite Hrun in Hw. cbn in Hw. subst w'. cbn [token calls].
  exists t. cbv zeta.
  destruct (getToken_returns_from _ _ _ _ _ _ _ Hauth Htok)
    as [[Hcell ->] | (Hcell & -> & Hne & _)].
  - rewrite Hcell. apply truthy_token_Some in Hcell as [Hcell Hne].
    split; [assumption|]. split; [assumption|].
    split; [reflexivity|]. split; reflexivity.
  - rewrite Hcell. cbn [token calls].
    split; [reflexivity|]. split; [assumption|].
    rewrite <- app_assoc. reflexivity.
Qed.

Lemma disconnect_credentials_witness :
  disconnect (Sample.serving JS.VNull) Sample.user Sample.fresh
  = (Return JS.VNull,
     {| token := Some "tok-1";
        calls :=
          [ {| method := "POST"; base := baseUrl Sample.user;
               path := "/sessions"; query := None; body := None;
               authorization := Basic "admin" "secret" |};
            {| method := "DELETE"; base := baseUrl Sample.user;
               path := "/sessions/tok-1"; query := None; body := None;
               authorization := Bearer "tok-1" |} ] |})
  /\ exists t,
       Some "tok-1" = Some t /\ t <> ""
       /\ [ {| method := "POST"; base := baseUrl Sample.user;
               path := "/sessions"; query := None; body := None;
               authorization := Basic "admin" "secret" |};
            {| method := "DELETE"; base := baseUrl Sample.user;
               path := "/sessions/tok-1"; query := None; body := None;
               authorization := Bearer "tok-1" |} ]
          = [ {| method := "POST"; base := baseUrl Sample.user;
                 path := "/sessions"; query := None; body := None;
                 authorization := Basic "admin" "secret" |};
              {| method := "DELETE"; base := baseUrl Sample.user;
                 path := "/sessions/" ++ t; query := None; body := None;
                 authorization := Bearer t |} ].
Proof.
  split; [reflexivity|].
  exact (disconnect_credentials (Sample.serving JS.VNull) Sample.user
           "admin" "secret" Sample.fresh JS.VNull _ eq_refl eq_refl).
Defined.

(** ** Operation layer: [find] and [findOne] *)

Lemma strict_eq_str_true :
  forall v lit, JS.strict_eq_str v lit = true -> v = JS.VStr lit.
Proof.
  intros [] lit H; cbn in H; try discriminate.
  apply String.eqb_eq in H. congruence.
Qed.

(** C4. Whatever [request] does for the call built by [find]: when it fails
    with a [FileMakerError] of code ["401"] and [ignoreEmptyResult] is
    [true], [find] returns [{ data: [] }]; any other error, and any error at
    all when [ignoreEmptyResult] is [false] or absent, is thrown on as it
    is. *)
Theorem find_ignoreEmptyResult :
  forall remote c args w o w',
    request remote c (find_params c args) w = (o, w') ->
    (forall message,
       JS.lookup "ignoreEmptyResult" args = JS.VBool true ->
       o = Throw (FileMakerError (JS.VStr "401") message) ->
       find remote c args w = (Return (JS.VObj [("data", JS.VArr [])]), w'))
    /\ (forall e,
          o = Throw e ->
          (forall message, e <> FileMakerError (JS.VStr "401") message) ->
          find remote c args w = (Throw e, w'))
    /\ (forall e,
          o = Throw e ->
          JS.lookup "ignoreEmptyResult" args = JS.VBool false
          \/ JS.lookup "ignoreEmptyResult" args = JS.VUndefined ->
          find remote c args w = (Throw e, w')).
Proof.
  intros remote c args w o w' Hrun. unfold find, catch. rewrite Hrun.
  split; [|split].
  - intros message Hflag ->. unfold ignoreEmptyResult_of. rewrite Hflag.
    reflexivity.
  - intros e -> Hother. destruct e as [code message| | | | |]; try reflexivity.
    unfold find_handler.
    destruct (JS.truthy _ && JS.strict_eq_str code "401") eqn:Htest;
      [|reflexivity].
    apply andb_true_iff in Htest as [_ Hcode].
    apply strict_eq_str_true in Hcode. subst code.
    exfalso. apply (Hother message). reflexivity.
  - intros e -> Hflag. unfold ignoreEmptyResult_of.
    destruct Hflag as [-> | ->]; destruct e; reflexivity.
Qed.

Lemma find_ignoreEmptyResult_witness :
  find Sample.no_records Sample.otto (Sample.find_args true) Sample.keyed
  = (Return (JS.VObj [("data", JS.VArr [])]),
     {| token := Some "KEY_abc123";
        calls := [request_call Sample.otto
                    (find_params Sample.otto (Sample.find_args true))
                    "KEY_abc123"] |})
  /\ fst (find Sample.no_records Sample.otto (Sample.find_args false) Sample.keyed)
     = fst (request Sample.no_records Sample.otto
              (find_params Sample.otto (Sample.find_args false)) Sample.keyed)
  /\ fst (find (Sample.failing 500 None) Sample.otto (Sample.find_args true)
            Sample.keyed)
     = Throw (FileMakerError (JS.VStr "500")
                (JS.VStr "Filemaker Data API failed with (500): {}")).
Proof.
  split; [|split].
  - eapply (proj1 (find_ignoreEmptyResult Sample.no_records Sample.otto
                     (Sample.find_args true) Sample.keyed _ _ eq_refl));
      reflexivity.
  - erewrite (proj2 (proj2 (find_ignoreEmptyResult Sample.no_records Sample.otto
                              (Sample.find_args false) Sample.keyed _ _ eq_refl)));
      [reflexivity | reflexivity | left; reflexivity].
  - erewrite (proj1 (proj2 (find_ignoreEmptyResult (Sample.failing 500 None)
                              Sample.otto (Sample.find_args true) Sample.keyed
                              _ _ eq_refl)));
      [reflexivity | reflexivity | discriminate].
Defined.

(** [o[k] = v] is read back by [o[k]]. *)
Lemma lookup_set_same :
  forall k v o, JS.lookup k (JS.set k v o) = v.
Proof.
  intros k v o. induction o as [|[k' v'] o IH]; cbn.
  - rewrite String.eqb_refl. reflexivity.
  - destruct (String.eqb k k') eqn:E; cbn.
    + rewrite String.eqb_refl. reflexivity.
    + rewrite E. exact IH.
Qed.

(** C6. When [find] returns an object whose [data] is an array: with exactly
    one record in it, [findOne] returns that object with [data] replaced by
    the record itself; with any other number of records it throws an
    [Error], not a [FileMakerError], whose message starts with that
    number. *)
Theorem findOne_exactly_one :
  forall remote c args w props records w',
    find remote c args w = (Return (JS.VObj props), w') ->
    JS.lookup "data" props = JS.VArr records ->
    findOne remote c args w
    = (match records with
       | [r] => Return (JS.VObj (JS.set "data" r props))
       | _ => Throw (JsError (JS.Number_toString (Z.of_nat (length records))
                              ++ " records found; expecting exactly 1"))
       end, w')
    /\ (forall r, records = [r] ->
          JS.lookup "data" (JS.set "data" r props) = r).
Proof.
  intros remote c args w props records w' Hfind Hdata. split.
  - unfold findOne. rewrite (bind_Return _ _ _ _ _ _ _ Hfind).
    run. cbn [prop]. rewrite Hdata.
    destruct records as [|r [|r' others]]; [reflexivity | reflexivity |].
    assert (E : (Z.of_nat (length (r :: r' :: others)) =? 1) = false)
      by (apply Z.eqb_neq; cbn [length]; lia).
    cbn [length_of JS.strict_eq_num JS.ToString]. rewrite E. reflexivity.
  - intros r _. apply lookup_set_same.
Qed.

Lemma findOne_exactly_one_witness :
  fst (findOne (Sample.serving (Sample.found [Sample.record 7 "Ann"]))
         Sample.otto (Sample.find_args false) Sample.keyed)
  = Return (JS.VObj [("data", Sample.record 7 "Ann")])
  /\ fst (findOne (Sample.serving (Sample.found []))
            Sample.otto (Sample.find_args false) Sample.keyed)
     = Throw (JsError "0 records found; expecting exactly 1")
  /\ fst (findOne (Sample.serving
                     (Sample.found [Sample.record 7 "Ann"; Sample.record 8 "Bob"]))
            Sample.otto (Sample.find_args false) Sample.keyed)
     = Throw (JsError "2 records found; expecting exactly 1").
Proof.
  split; [|split].
  - rewrite (proj1 (findOne_exactly_one
                      (Sample.serving (Sample.found [Sample.record 7 "Ann"]))
                      Sample.otto (Sample.find_args false) Sample.keyed
                      [("data", JS.VArr [Sample.record 7 "Ann"])]
                      [Sample.record 7 "Ann"] _ eq_refl eq_refl)).
    reflexivity.
  - rewrite (proj1 (findOne_exactly_one
                      (Sample.serving (Sample.found []))
                      Sample.otto (Sample.find_args false) Sample.keyed
                      [("data", JS.VArr [])] [] _ eq_refl eq_refl)).
    reflexivity.
  - rewrite (proj1 (findOne_exactly_one
                      (Sample.serving
                         (Sample.found [Sample.record 7 "Ann"; Sample.record 8 "Bob"]))
                      Sample.otto (Sample.find_args false) Sample.keyed
                      [("data", JS.VArr [Sample.record 7 "Ann"; Sample.record 8 "Bob"])]
                      [Sample.record 7 "Ann"; Sample.record 8 "Bob"]
                      _ eq_refl eq_refl)).
    reflexivity.
Defined.

(** ** Operation layer: [list] *)

Lemma has_false_lookup :
  forall k o, JS.has k o = false -> JS.lookup k o = JS.VUndefined.
Proof.
  intros k o. induction o as [|[k' v'] o IH]; cbn; [reflexivity|].
  destruct (String.eqb k k'); cbn; [discriminate|exact IH].
Qed.

Lemma lookup_rest_other :
  forall k ks o,
    existsb (String.eqb k) ks = false ->
    JS.lookup k (JS.rest ks o) = JS.lookup k o.
Proof.
  intros k ks o Hk. induction o as [|[k' v'] o IH]; cbn; [reflexivity|].
  destruct (String.eqb_spec k k') as [<-|Hne].
  - rewrite Hk. cbn. rewrite String.eqb_refl. reflexivity.
  - destruct (existsb (String.eqb k') ks); cbn; [exact IH|].
    apply String.eqb_neq in Hne. rewrite Hne. exact IH.
Qed.

Lemma has_delete_same : forall k o, JS.has k (JS.delete k o) = false.
Proof.
  intros k o. induction o as [|[k' v'] o IH]; cbn; [reflexivity|].
  destruct (String.eqb k k') eqn:E; cbn; [exact IH|].
  rewrite E. exact IH.
Qed.

Lemma lookup_delete_other :
  forall k k' o, k <> k' -> JS.lookup k' (JS.delete k o) = JS.lookup k' o.
Proof.
  intros k k' o Hne. unfold JS.delete.
  induction o as [|[k'' v''] o IH]; cbn [filter fst JS.lookup]; [reflexivity|].
  destruct (String.eqb_spec k k'') as [<-|Hne']; cbn [negb JS.lookup].
  - apply not_eq_sym in Hne. apply String.eqb_neq in Hne. rewrite Hne. exact IH.
  - rewrite IH. reflexivity.
Qed.

(** A falsy [params[k]], absent or not, leaves [params] as it is. *)
Lemma rename_falsy :
  forall k k' f params,
    JS.truthy (JS.lookup k params) = false -> rename k k' f params = params.
Proof. intros k k' f params H. unfold rename. rewrite H. reflexivity. Qed.

(** A truthy [params[k]] moves to [k'], and [k] is gone. *)
Lemma rename_truthy :
  forall k k' f params,
    k <> k' ->
    JS.truthy (JS.lookup k params) = true ->
    JS.lookup k' (rename k k' f params) = f (JS.lookup k params)
    /\ JS.has k (rename k k' f params) = false.
Proof.
  intros k k' f params Hne H. unfold rename. rewrite H. split.
  - rewrite (lookup_delete_other _ _ _ Hne). apply lookup_set_same.
  - apply has_delete_same.
Qed.

(** With none of [limit], [offset], [sort] in [args], the query is [args]
    without [layout]: nothing is renamed and nothing is added. *)
Lemma list_query_absent :
  forall args,
    JS.has "limit" args = false ->
    JS.has "offset" args = false ->
    JS.has "sort" args = false ->
    list_query args = JS.rest ["layout"] args.
Proof.
  intros args Hl Ho Hs. unfold list_query.
  assert (Hk : forall k,
             existsb (String.eqb k) ["layout"] = false ->
             JS.has k args = false ->
             JS.truthy (JS.lookup k (JS.rest ["layout"] args)) = false).
  { intros k Hk Habs. rewrite (lookup_rest_other _ _ _ Hk).
    rewrite (has_false_lookup _ _ Habs). reflexivity. }
  rewrite (rename_falsy "limit") by (apply Hk; [reflexivity|assumption]).
  rewrite (rename_falsy "offset") by (apply Hk; [reflexivity|assumption]).
  rewrite (rename_falsy "sort") by (apply Hk; [reflexivity|assumption]).
  reflexivity.
Qed.

Lemma lookup_set_other :
  forall k k' v o, k <> k' -> JS.lookup k' (JS.set k v o) = JS.lookup k' o.
Proof.
  intros k k' v o Hne. apply not_eq_sym in Hne. apply String.eqb_neq in Hne.
  induction o as [|[k'' v''] o IH]; cbn.
  - rewrite Hne. reflexivity.
  - destruct (String.eqb_spec k k'') as [<-|Hne']; cbn.
    + rewrite Hne. reflexivity.
    + rewrite IH. reflexivity.
Qed.

Lemma lookup_delete_same :
  forall k o, JS.lookup k (JS.delete k o) = JS.VUndefined.
Proof. intros k o. apply has_false_lookup, has_delete_same. Qed.

(** What [params[x]] is after one renaming step. *)
Lemma lookup_rename :
  forall k k' f params x,
    k <> k' ->
    JS.lookup x (rename k k' f params)
    = if JS.truthy (JS.lookup k params)
      then if String.eqb x k then JS.VUndefined
           else if String.eqb x k' then f (JS.lookup k params)
           else JS.lookup x params
      else JS.lookup x params.
Proof.
  intros k k' f params x Hne. unfold rename.
  destruct (JS.truthy (JS.lookup k params)); [|reflexivity].
  destruct (String.eqb_spec x k) as [->|Hxk].
  - apply lookup_delete_same.
  - rewrite lookup_delete_other by congruence.
    destruct (String.eqb_spec x k') as [->|Hxk'].
    + apply lookup_set_same.
    + apply lookup_set_other. congruence.
Qed.

(** The renaming as [list] does it, key by key: a truthy [limit], [offset]
    or [sort] is found under its new name ([sort] as an array) and no
    longer under the old one; a falsy one stays where it was. *)
Lemma list_query_limit :
  forall args,
    let v := JS.lookup "limit" args in
    JS.lookup "_limit" (list_query args)
    = (if JS.truthy v then v else JS.lookup "_limit" args)
    /\ JS.lookup "limit" (list_query args)
       = (if JS.truthy v then JS.VUndefined else v).
Proof.
  intros args v. subst v. unfold list_query.
  rewrite !lookup_rename by discriminate.
  cbn [String.eqb Ascii.eqb Bool.eqb].
  rewrite !lookup_rest_other by reflexivity.
  split;
    destruct (JS.truthy (JS.lookup "limit" args)); cbv iota;
    destruct (JS.truthy (JS.lookup "offset" args)); cbv iota;
    destruct (JS.truthy (JS.lookup "sort" args)); reflexivity.
Qed.

Lemma list_query_offset :
  forall args,
    let v := JS.lookup "offset" args in
    JS.lookup "_offset" (list_query args)
    = (if JS.truthy v then v else JS.lookup "_offset" args)
    /\ JS.lookup "offset" (list_query args)
       = (if JS.truthy v then JS.VUndefined else v).
Proof.
  intros args v. subst v. unfold list_query.
  rewrite !lookup_rename by discriminate.
  cbn [String.eqb Ascii.eqb Bool.eqb].
  rewrite !lookup_rest_other by reflexivity.
  split;
    destruct (JS.truthy (JS.lookup "limit" args)); cbv iota;
    destruct (JS.truthy (JS.lookup "offset" args)); cbv iota;
    destruct (JS.truthy (JS.lookup "sort" args)); reflexivity.
Qed.

Lemma list_query_sort :
  forall args,
    let v := JS.lookup "sort" args in
    JS.lookup "_sort" (list_query args)
    = (if JS.truthy v then wrap_sort v else JS.lookup "_sort" args)
    /\ JS.lookup "sort" (list_query args)
       = (if JS.truthy v then JS.VUndefined else v).
Proof.
  intros args v. subst v. unfold list_query.
  rewrite !lookup_rename by discriminate.
  cbn [String.eqb Ascii.eqb Bool.eqb].
  rewrite !lookup_rest_other by reflexivity.
  split;
    destruct (JS.truthy (JS.lookup "limit" args)); cbv iota;
    destruct (JS.truthy (JS.lookup "offset" args)); cbv iota;
    destruct (JS.truthy (JS.lookup "sort" args)); reflexivity.
Qed.

(** The renaming on [{ limit: 10, offset: 5, sort: "Name" }]. *)
Example list_query_renamed :
  list_query [("limit", JS.VNum 10); ("offset", JS.VNum 5);
              ("sort", JS.VStr "Name")]
  = [("_limit", JS.VNum 10); ("_offset", JS.VNum 5);
     ("_sort", JS.VArr [JS.VStr "Name"])].
Proof. reflexivity. Qed.

(** C5. At [list({ offset: 0 })] the key [offset] is in the input and is
    not renamed: the query of the call that goes out still has [offset] and
    has no [_offset]. *)
Example list_offset_zero_kept :
  list_query [("offset", JS.VNum 0)] = [("offset", JS.VNum 0)]
  /\ calls (snd (list (Sample.serving (Sample.found [])) Sample.otto
                   [("offset", JS.VNum 0)] Sample.keyed))
     = [ {| method := "GET";
            base := baseUrl Sample.otto;
            path := "/layouts/Customers/records";
            query := Some [("offset", JS.VNum 0)];
            body := None;
            authorization := Bearer "KEY_abc123" |} ].
Proof. split; reflexivity. Qed.

(** ** Construction *)

(** *** The port assignment *)

Lemma port_buffer_digits :
  forall d,
    port_buffer (NilEmpty.string_of_uint d) = NilEmpty.string_of_uint d.
Proof. induction d; cbn; try rewrite IHd; reflexivity. Qed.

(** The text of a number from 0 on is made of digits that read back as the
    number. *)
Lemma Number_toString_digits :
  forall n,
    0 <= n ->
    exists d c r,
      JS.Number_toString n = NilEmpty.string_of_uint d
      /\ NilEmpty.string_of_uint d = String c r
      /\ Z.of_uint d = n.
Proof.
  intros n Hn. unfold JS.Number_toString.
  pose proof (DecimalZ.of_to n) as Hback.
  destruct n as [|p|p]; [| |lia].
  - exists (Decimal.D0 Decimal.Nil), "0"%char, "". repeat split.
  - cbn [Z.to_int NilZero.string_of_int] in *.
    destruct (Pos.to_uint p) as [| d | d | d | d | d | d | d | d | d | d] eqn:E;
      cbn [NilZero.string_of_uint NilEmpty.string_of_uint].
    + exists (Decimal.D0 Decimal.Nil), "0"%char, "".
      cbn in Hback. repeat split. exact Hback.
    + exists (Decimal.D0 d), "0"%char, (NilEmpty.string_of_uint d).
      repeat split. exact Hback.
    + exists (Decimal.D1 d), "1"%char, (NilEmpty.string_of_uint d).
      repeat split. exact Hback.
    + exists (Decimal.D2 d), "2"%char, (NilEmpty.string_of_uint d).
      repeat split. exact Hback.
    + exists (Decimal.D3 d), "3"%char, (NilEmpty.string_of_uint d).
      repeat split. exact Hback.
    + exists (Decimal.D4 d), "4"%char, (NilEmpty.string_of_uint d).
      repeat split. exact Hback.
    + exists (Decimal.D5 d), "5"%char, (NilEmpty.string_of_uint d).
      repeat split. exact Hback.
    + exists (Decimal.D6 d), "6"%char, (NilEmpty.string_of_uint d).
      repeat split. exact Hback.
    + exists (Decimal.D7 d), "7"%char, (NilEmpty.string_of_uint d).
      repeat split. exact Hback.
    + exists (Decimal.D8 d), "8"%char, (NilEmpty.string_of_uint d).
      repeat split. exact Hback.
    + exists (Decimal.D9 d), "9"%char, (NilEmpty.string_of_uint d).
      repeat split. exact Hback.
Qed.

(** The text of a number below 0 starts with the sign. *)
Lemma Number_toString_negative :
  forall n, n < 0 -> exists r, JS.Number_toString n = String "-" r.
Proof.
  intros n Hn. destruct n as [|p|p]; [lia|lia|].
  unfold JS.Number_toString. cbn [Z.to_int NilZero.string_of_int]. eauto.
Qed.

Lemma URL_set_port_digits :
  forall url d c r default,
    String.prefix "file:" (lower (href url)) = false ->
    scheme_default_port (href url) = Some default ->
    NilEmpty.string_of_uint d = String c r ->
    URL_set_port url (NilEmpty.string_of_uint d)
    = if 65535 <? Z.of_uint d then url
      else {| href := href url;
              port := Some (if Z.of_uint d =? default then ""
                            else JS.Number_toString (Z.of_uint d)) |}.
Proof.
  intros url d c r default Hfile Hdefault Hs. unfold URL_set_port.
  rewrite Hfile, Hdefault, port_buffer_digits, Hs. cbn [String.eqb].
  rewrite <- Hs, NilEmpty.usu.
  destruct (65535 <? Z.of_uint d); [reflexivity|].
  destruct (Z.of_uint d =? default); reflexivity.
Qed.

(** Assigning the text of an integer to the port of a URL that has a
    default port: outside 0..65535 nothing happens; inside, the port is the
    number, shown empty when it is the default. *)
Lemma URL_set_port_number :
  forall url n default,
    String.prefix "file:" (lower (href url)) = false ->
    scheme_default_port (href url) = Some default ->
    URL_set_port url (JS.Number_toString n)
    = if (n <? 0) || (65535 <? n) then url
      else {| href := href url;
              port := Some (if n =? default then ""
                            else JS.Number_toString n) |}.
Proof.
  intros url n default Hfile Hdefault.
  destruct (Z.ltb_spec n 0) as [Hneg|Hpos]; cbn [orb].
  - destruct (Number_toString_negative n Hneg) as (r & Hn).
    unfold URL_set_port. rewrite Hfile, Hn. reflexivity.
  - destruct (Number_toString_digits n Hpos) as (d & c & r & Hn & Hs & Hd).
    rewrite Hn at 1.
    rewrite (URL_set_port_digits url d c r default Hfile Hdefault Hs), Hd.
    reflexivity.
Qed.

Lemma prefix_http :
  forall s,
    String.prefix "http" s = true ->
    exists r, s = String "h" (String "t" (String "t" (String "p" r))).
Proof.
  intros s H.
  destruct s as [|c1 [|c2 [|c3 [|c4 r]]]]; cbn in H; try discriminate;
    repeat match type of H with
           | (if ?b then _ else _) = true => destruct b; [subst|discriminate]
           end;
    try discriminate.
  exists r. reflexivity.
Qed.

(** C10.  A client that [DataApi] builds from an API key, for a server whose
    scheme has a default port (http: 80, https: 443): when [ottoPort], or
    3030 without one, is from 0 to 65535, the port of the base URL is that
    number (the empty port when it is the default one); when it is below 0,
    or above 65535 and below 1e21, the assignment has no effect and the port
    is the one of the server URL.  A client built from a user name and
    password has the port of the server URL.  Either way the base URL was
    made from [server] and [db], and no call has been made. *)
Theorem DataApi_port :
  forall canParse input c w,
    DataApi canParse input = Return (c, w) ->
    options c = input
    /\ calls w = []
    /\ href (baseUrl c)
       = server input ++ "/fmi/data/vLatest/databases/" ++ db input
    /\ match auth input with
       | OttoAuth apiKey ottoPort =>
           let n := match ottoPort with Some n => n | None => 3030 end in
           forall default,
             scheme_default_port (href (baseUrl c)) = Some default ->
             (0 <= n <= 65535 ->
                port (baseUrl c)
                = Some (if n =? default then "" else JS.Number_toString n))
             /\ (n < 0 \/ 65535 < n < 10 ^ 21 -> port (baseUrl c) = None)
       | UserPasswordAuth _ _ => port (baseUrl c) = None
       end.
Proof.
  intros canParse input c w H. unfold DataApi, ZodOptions_parse in H.
  destruct (String.prefix "http" (server input)) eqn:Hhttp;
    [|discriminate].
  cbn [andb] in H.
  destruct (nonempty (db input) && _); cbn [obind] in H; [|discriminate].
  destruct (negb (canParse _)); [discriminate|].
  assert (Hfile :
    String.prefix "file:"
      (lower (server input ++ "/fmi/data/vLatest/databases/" ++ db input))
    = false).
  { destruct (prefix_http _ Hhttp) as (r & ->). reflexivity. }
  set (url := {| href := server input ++ "/fmi/data/vLatest/databases/"
                         ++ db input;
                 port := None |}) in H.
  change (String.prefix "file:" (lower (href url)) = false) in Hfile.
  destruct (auth input) as [apiKey ottoPort|username password].
  - cbv zeta.
    set (n := match ottoPort with Some n => n | None => 3030 end) in *.
    assert (Hhref : href (URL_set_port url (JS.Number_toString n)) = href url).
    { unfold URL_set_port.
      repeat match goal with
             | |- context [if ?b then _ else _] => destruct b
             | |- context [match ?x with _ => _ end] => destruct x
             end; reflexivity. }
    injection H as <- <-. cbn [options calls baseUrl].
    split; [reflexivity|]. split; [reflexivity|]. split; [exact Hhref|].
    intros default Hdefault. rewrite Hhref in Hdefault.
    rewrite (URL_set_port_number url n default Hfile Hdefault).
    split.
    + intros [Hlo Hhi].
      destruct (Z.ltb_spec n 0); [lia|].
      destruct (Z.ltb_spec 65535 n); [lia|]. reflexivity.
    + intros [Hneg | [Hbig _]].
      * destruct (Z.ltb_spec n 0); [reflexivity|lia].
      * destruct (Z.ltb_spec 65535 n); [|lia].
        rewrite orb_true_r. reflexivity.
  - injection H as <- <-.
    split; [reflexivity|]. split; [reflexivity|]. split; reflexivity.
Qed.

Lemma DataApi_port_witness :
  DataApi Sample.canParse Sample.otto_props = Return (Sample.otto, Sample.keyed)
  /\ port (baseUrl Sample.otto) = Some "3030"
  /\ DataApi Sample.canParse Sample.user_props = Return (Sample.user, Sample.fresh)
  /\ port (baseUrl Sample.user) = None
  /\ (forall c w,
        DataApi Sample.canParse (Sample.otto_port 443) = Return (c, w) ->
        port (baseUrl c) = Some "")
  /\ (forall c w,
        DataApi Sample.canParse (Sample.otto_port 8443) = Return (c, w) ->
        port (baseUrl c) = Some "8443")
  /\ (forall c w,
        DataApi Sample.canParse (Sample.otto_port 70000) = Return (c, w) ->
        port (baseUrl c) = None).
Proof.
  split; [reflexivity|]. split.
  { apply (proj1 (proj2 (proj2 (proj2 (DataApi_port Sample.canParse
                                         Sample.otto_props
                                         Sample.otto Sample.keyed eq_refl)))
                    443 eq_refl)).
    cbn. lia. }
  split; [reflexivity|]. split.
  { exact (proj2 (proj2 (proj2 (DataApi_port Sample.canParse Sample.user_props
                                  Sample.user Sample.fresh eq_refl)))). }
  split; [|split]; intros c w H;
    destruct (DataApi_port Sample.canParse _ c w H) as (_ & _ & Hhref & Hport);
    cbn [auth Sample.otto_port] in Hport;
    (assert (Hdefault : scheme_default_port (href (baseUrl c)) = Some 443)
       by (rewrite Hhref; reflexivity));
    destruct (Hport 443 Hdefault) as [Hin Hout].
  - apply Hin. lia.
  - apply Hin. lia.
  - apply Hout. right. lia.
Defined.

(** C10, as first stated, fails: with [ottoPort] 70000 the client is built
    and the port of its base URL is not 70000 but still the one of the
    server URL; with [ottoPort] 443 on an https server it is the empty
    port. *)
Lemma DataApi_port_70000_ignored :
  (exists c w,
     DataApi Sample.canParse
       {| server := "https://fm.example.com"; db := "Sales";
          auth := OttoAuth "KEY_abc123" (Some 70000); layout := None |}
     = Return (c, w)
     /\ port (baseUrl c) = None
     /\ port (baseUrl c) <> Some (JS.Number_toString 70000))
  /\ (exists c w,
        DataApi Sample.canParse
          {| server := "https://fm.example.com"; db := "Sales";
             auth := OttoAuth "KEY_abc123" (Some (-1)); layout := None |}
        = Return (c, w)
        /\ port (baseUrl c) = None
        /\ port (baseUrl c) <> Some (JS.Number_toString (-1))).
Proof.
  split; eexists; eexists; (split; [reflexivity|]);
    (split; [reflexivity|discriminate]).
Qed.

(** * Further properties *)

(** ** Construction and validation *)

Lemma ZodOptions_parse_cases :
  forall input,
    (ZodOptions_parse input = Return input /\ well_formed input)
    \/ (ZodOptions_parse input = Throw ZodError /\ ~ well_formed input).
Proof.
  intros input. unfold ZodOptions_parse, well_formed, nonempty.
  destruct (String.prefix "http" (server input)); cbn [andb].
  2: { right. split; [reflexivity|]. intros [H _]. discriminate. }
  destruct (String.eqb_spec (db input) "") as [Hdb|Hdb]; cbn [negb andb].
  { right. split; [reflexivity|]. intros (_ & H & _). contradiction. }
  destruct (auth input) as [apiKey ottoPort|username password].
  - destruct (String.eqb_spec apiKey "") as [Hk|Hk]; cbn [negb].
    + right. split; [reflexivity|]. intros (_ & _ & H). contradiction.
    + left. repeat split; assumption.
  - destruct (String.eqb_spec username "") as [Hu|Hu]; cbn [negb andb].
    { right. split; [reflexivity|]. intros (_ & _ & H & _). contradiction. }
    destruct (String.eqb_spec password "") as [Hp|Hp]; cbn [negb].
    + right. split; [reflexivity|]. intros (_ & _ & _ & H). contradiction.
    + left. repeat split; assumption.
Qed.

(** [DataApi] returns a client only for an input whose [server] starts
    with [http], whose [db] and credentials (the API key, or the user name
    and the password) are not empty and whose base URL parses; and whenever
    one of the first three fails it throws the validation error. *)
Theorem DataApi_validation :
  forall canParse input,
    let href := server input ++ "/fmi/data/vLatest/databases/" ++ db input in
    ((exists c w, DataApi canParse input = Return (c, w)) ->
     well_formed input /\ canParse href = true)
    /\ (~ well_formed input -> DataApi canParse input = Throw ZodError).
Proof.
  intros canParse input href. subst href. unfold DataApi.
  destruct (ZodOptions_parse_cases input) as [[-> Hwf] | [-> Hwf]];
    cbn [obind].
  - split.
    + intros (c & w & H). split; [assumption|].
      destruct (canParse _); [reflexivity|discriminate].
    + intros H. contradiction.
  - split.
    + intros (c & w & H). discriminate.
    + reflexivity.
Qed.

Lemma DataApi_validation_witness :
  (well_formed Sample.user_props
   /\ Sample.canParse "https://fm.example.com/fmi/data/vLatest/databases/Sales"
      = true)
  /\ DataApi Sample.canParse
       {| server := "fm.example.com"; db := "Sales";
          auth := UserPasswordAuth "admin" "secret"; layout := None |}
     = Throw ZodError
  /\ DataApi Sample.canParse
       {| server := "https://fm.example.com"; db := "Sales";
          auth := OttoAuth "" None; layout := None |}
     = Throw ZodError.
Proof.
  split; [|split].
  - apply (proj1 (DataApi_validation Sample.canParse Sample.user_props)).
    exists Sample.user, Sample.fresh. reflexivity.
  - apply (proj2 (DataApi_validation Sample.canParse
                    {| server := "fm.example.com"; db := "Sales";
                       auth := UserPasswordAuth "admin" "secret";
                       layout := None |})).
    intros [H _]. discriminate.
  - apply (proj2 (DataApi_validation Sample.canParse
                    {| server := "https://fm.example.com"; db := "Sales";
                       auth := OttoAuth "" None; layout := None |})).
    intros (_ & _ & H). apply H. reflexivity.
Defined.

(** ** Token manager: failures *)

(** With the key or a cached token at hand [getToken()] makes no call. *)
Lemma getToken_holding :
  forall remote c w t,
    holds_token c w t -> getToken remote c false w = (Return t, w).
Proof.
  intros remote c w t H. unfold holds_token in H. unfold getToken.
  destruct (auth (options c)) as [apiKey ottoPort|username password].
  - subst t. reflexivity.
  - cbv beta iota delta [bind ret read_token]. rewrite H. reflexivity.
Qed.

(** A login that throws caches nothing truthy. *)
Lemma login_throw_token :
  forall remote c username password w e w1,
    login remote c username password w = (Throw e, w1) ->
    truthy_token (token w) = None ->
    truthy_token (token w1) = None
    /\ calls w1 = (calls w ++ [login_request c username password])%list.
Proof.
  intros remote c username password w e w1 H Hcell.
  pose proof (login_calls remote c username password w) as Hcalls.
  rewrite H in Hcalls. cbn [snd] in Hcalls. split; [|exact Hcalls].
  clear Hcalls. unfold login in H. run.
  destruct (remote (calls w) _) as [|res].
  { injection H as _ <-. exact Hcell. }
  cbn in H. destruct (ok res); cbn in H.
  - destruct (truthy_token (access_token res)) as [t1|] eqn:Hnew;
      [discriminate|].
    injection H as _ <-. exact Hnew.
  - destruct (json res) as [data|]; cbn in H.
    2: { injection H as _ <-. exact Hcell. }
    destruct (obind (prop data "messages") _); cbn in H.
    2: { injection H as _ <-. exact Hcell. }
    destruct (obind (prop data "messages") _); injection H as _ <-;
      exact Hcell.
Qed.

Lemma getToken_throw_world :
  forall remote c username password refresh w e w1,
    auth (options c) = UserPasswordAuth username password ->
    getToken remote c refresh w = (Throw e, w1) ->
    truthy_token (token w1) = None
    /\ calls w1 = (calls w ++ [login_request c username password])%list.
Proof.
  intros remote c username password refresh w e w1 Hauth Hrun.
  unfold getToken in Hrun. rewrite Hauth in Hrun.
  cbv beta iota delta [bind ret read_token write_token] in Hrun.
  destruct refresh; cbn [token calls] in Hrun.
  - cbn [truthy_token] in Hrun.
    apply login_throw_token in Hrun; [exact Hrun | reflexivity].
  - destruct (truthy_token (token w)) eqn:Hcell; [discriminate|].
    apply login_throw_token in Hrun; [exact Hrun | exact Hcell].
Qed.

(** A [getToken] that throws, with or without [refresh], has made exactly
    one call, the login, and leaves no token in the cache: the next call
    will log in again. *)
Theorem getToken_failure_caches_nothing :
  forall remote c username password refresh w e w1,
    auth (options c) = UserPasswordAuth username password ->
    getToken remote c refresh w = (Throw e, w1) ->
    truthy_token (token w1) = None
    /\ calls w1 = (calls w ++ [login_request c username password])%list.
Proof. exact getToken_throw_world. Qed.

Lemma getToken_failure_caches_nothing_witness :
  truthy_token
    (token (snd (getToken (Sample.failing 500 None) Sample.user true
                   Sample.logged_in))) = None
  /\ calls (snd (getToken (Sample.failing 500 None) Sample.user true
                   Sample.logged_in))
     = [login_request Sample.user "admin" "secret"].
Proof.
  exact (getToken_failure_caches_nothing (Sample.failing 500 None) Sample.user
           "admin" "secret" true Sample.logged_in SyntaxError _
           eq_refl eq_refl).
Defined.

Lemma getToken_refused_cases :
  forall remote c username password w res,
    auth (options c) = UserPasswordAuth username password ->
    truthy_token (token w) = None ->
    remote (calls w) (login_request c username password) = Responded res ->
    ok res = false ->
    let w1 := after_call w (login_request c username password) in
    (json res = None ->
       getToken remote c false w = (Throw SyntaxError, w1))
    /\ (forall props m others,
          json res = Some (JS.VObj props) ->
          JS.lookup "messages" props = JS.VArr (JS.VObj m :: others) ->
          getToken remote c false w
          = (Throw (FileMakerError (JS.lookup "code" m) (JS.lookup "message" m)),
             w1)).
Proof.
  intros remote c username password w res Hauth Hcell Hres Hok w1. subst w1.
  unfold getToken. rewrite Hauth.
  cbv beta iota delta [bind ret read_token]. rewrite Hcell.
  unfold login, after_call. run. rewrite Hres. cbn. rewrite Hok. cbn.
  split.
  - intros ->. reflexivity.
  - intros props m others -> Hmsgs. cbn. rewrite Hmsgs. reflexivity.
Qed.

(** What a login that is refused throws: the code and the message of the
    first reported message when the body carries one, the parse error of
    [res.json()] when the body does not parse.  The cache stays as it
    was. *)
Theorem getToken_login_refused :
  forall remote c username password w res,
    auth (options c) = UserPasswordAuth username password ->
    truthy_token (token w) = None ->
    remote (calls w) (login_request c username password) = Responded res ->
    ok res = false ->
    let w1 := after_call w (login_request c username password) in
    (json res = None ->
       getToken remote c false w = (Throw SyntaxError, w1))
    /\ (forall props m others,
          json res = Some (JS.VObj props) ->
          JS.lookup "messages" props = JS.VArr (JS.VObj m :: others) ->
          getToken remote c false w
          = (Throw (FileMakerError (JS.lookup "code" m) (JS.lookup "message" m)),
             w1)).
Proof. exact getToken_refused_cases. Qed.

(** A login that is accepted but carries no token (no header, or an empty
    one) throws ["Could not get token"]; [token] then holds what the header
    lookup gave. *)
Theorem getToken_no_token_header :
  forall remote c username password w res,
    auth (options c) = UserPasswordAuth username password ->
    truthy_token (token w) = None ->
    remote (calls w) (login_request c username password) = Responded res ->
    ok res = true ->
    truthy_token (access_token res) = None ->
    getToken remote c false w
    = (Throw (JsError "Could not get token"),
       {| token := access_token res;
          calls := (calls w ++ [login_request c username password])%list |}).
Proof.
  intros remote c username password w res Hauth Hcell Hres Hok Hnone.
  unfold getToken. rewrite Hauth.
  cbv beta iota delta [bind ret read_token]. rewrite Hcell.
  unfold login. run. rewrite Hres. cbn. rewrite Hok. cbn. rewrite Hnone.
  reflexivity.
Qed.

Lemma getToken_login_refused_witness :
  getToken (Sample.failing 500 None) Sample.user false Sample.fresh
  = (Throw SyntaxError,
     after_call Sample.fresh (login_request Sample.user "admin" "secret"))
  /\ getToken Sample.refusing Sample.user false Sample.fresh
     = (Throw (FileMakerError (JS.VStr "212") (JS.VStr "Invalid user account")),
        after_call Sample.fresh (login_request Sample.user "admin" "secret")).
Proof.
  split.
  - apply (proj1 (getToken_login_refused (Sample.failing 500 None) Sample.user
                    "admin" "secret" Sample.fresh _
                    eq_refl eq_refl eq_refl eq_refl)).
    reflexivity.
  - apply (proj2 (getToken_login_refused Sample.refusing Sample.user
                    "admin" "secret" Sample.fresh _
                    eq_refl eq_refl eq_refl eq_refl)
             [("response", JS.VObj []);
              ("messages",
               JS.VArr [JS.VObj [("code", JS.VStr "212");
                                 ("message", JS.VStr "Invalid user account")]])]
             [("code", JS.VStr "212");
              ("message", JS.VStr "Invalid user account")]
             []);
      reflexivity.
Defined.

Lemma getToken_no_token_header_witness :
  getToken (Sample.failing 200 None) Sample.user false Sample.fresh
  = (Throw (JsError "Could not get token"),
     {| token := None;
        calls := [login_request Sample.user "admin" "secret"] |}).
Proof.
  exact (getToken_no_token_header (Sample.failing 200 None) Sample.user
           "admin" "secret" Sample.fresh _
           eq_refl eq_refl eq_refl eq_refl eq_refl).
Defined.

(** ** Request dispatcher: the calls it makes *)

Lemma request_world_holding :
  forall remote c params w t,
    holds_token c w t ->
    snd (request remote c params w) = after_call w (request_call c params t).
Proof.
  intros remote c params w t H. unfold request.
  rewrite (bind_Return _ _ _ _ _ _ _ (getToken_holding remote c w t H)).
  unfold bind, fetch, after_call.
  destruct (remote (calls w) (request_call c params t)) as [|res];
    [reflexivity|].
  pose proof (unwrap_world res
    {| token := token w;
       calls := (calls w ++ [request_call c params t])%list |}) as Hw.
  destruct (unwrap res _) as [[v|e] w2]; cbn [snd] in *; exact Hw.
Qed.

(** With the API key or a cached token [request] makes exactly one call,
    authorised with that token, and does not touch [token], whatever the
    answer is: a failure is not followed by a refresh or a second try. *)
Theorem request_single_call :
  forall remote c params w t,
    holds_token c w t ->
    snd (request remote c params w) = after_call w (request_call c params t).
Proof. exact request_world_holding. Qed.

Lemma request_single_call_witness :
  snd (request Sample.no_records Sample.user Sample.records_call
         Sample.logged_in)
  = {| token := Some "tok-0";
       calls := [request_call Sample.user Sample.records_call "tok-0"] |}.
Proof.
  exact (request_single_call Sample.no_records Sample.user Sample.records_call
           Sample.logged_in "tok-0" eq_refl).
Defined.

Lemma request_throw_of_getToken :
  forall remote c username password params w e w1,
    auth (options c) = UserPasswordAuth username password ->
    getToken remote c false w = (Throw e, w1) ->
    request remote c params w = (Throw e, w1)
    /\ calls w1 = (calls w ++ [login_request c username password])%list.
Proof.
  intros remote c username password params w e w1 Hauth Hrun. split.
  - unfold request. apply bind_Throw. exact Hrun.
  - eapply getToken_throw_world; eassumption.
Qed.

(** When the token cannot be obtained, [request] throws what [getToken]
    threw and its own call is never made: the login is the only call. *)
Theorem request_login_failure :
  forall remote c username password params w e w1,
    auth (options c) = UserPasswordAuth username password ->
    getToken remote c false w = (Throw e, w1) ->
    request remote c params w = (Throw e, w1)
    /\ calls w1 = (calls w ++ [login_request c username password])%list.
Proof. exact request_throw_of_getToken. Qed.

Lemma request_login_failure_witness :
  request Sample.refusing Sample.user Sample.records_call Sample.fresh
  = (Throw (FileMakerError (JS.VStr "212") (JS.VStr "Invalid user account")),
     {| token := None;
        calls := [login_request Sample.user "admin" "secret"] |}).
Proof.
  exact (proj1 (request_login_failure Sample.refusing Sample.user
                  "admin" "secret" Sample.records_call Sample.fresh _ _
                  eq_refl eq_refl)).
Defined.

(** Without a cached token [request] logs in first: when the login yields
    the token [t], the calls are the login and then the request authorised
    with [t], and [t] is cached, whatever the answer to the request is. *)
Theorem request_logs_in_first :
  forall remote c username password params w res t,
    auth (options c) = UserPasswordAuth username password ->
    truthy_token (token w) = None ->
    remote (calls w) (login_request c username password) = Responded res ->
    ok res = true -> access_token res = Some t -> t <> "" ->
    snd (request remote c params w)
    = {| token := Some t;
         calls := (calls w ++ [login_request c username password;
                               request_call c params t])%list |}.
Proof.
  intros remote c username password params w res t
         Hauth Hcell Hres Hok Htok Hne.
  assert (Hget : getToken remote c false w
                 = (Return t,
                    {| token := Some t;
                       calls := (calls w
                                 ++ [login_request c username password])%list |})).
  { unfold getToken. rewrite Hauth.
    cbv beta iota delta [bind ret read_token]. rewrite Hcell.
    apply (login_Return remote c username password w res t); assumption. }
  unfold request. rewrite (bind_Return _ _ _ _ _ _ _ Hget).
  unfold bind, fetch. cbn [token calls].
  rewrite <- app_assoc. cbn [app].
  destruct (remote _ (request_call c params t)) as [|res2]; [reflexivity|].
  pose proof (unwrap_world res2
    {| token := Some t;
       calls := (calls w ++ [login_request c username password;
                             request_call c params t])%list |}) as Hw.
  destruct (unwrap res2 _) as [[v|e] w2]; cbn [snd] in *; exact Hw.
Qed.

Lemma request_logs_in_first_witness :
  snd (request (Sample.serving JS.VNull) Sample.user Sample.records_call
         Sample.fresh)
  = {| token := Some "tok-1";
       calls := [login_request Sample.user "admin" "secret";
                 request_call Sample.user Sample.records_call "tok-1"] |}.
Proof.
  eapply (request_logs_in_first (Sample.serving JS.VNull) Sample.user
            "admin" "secret" Sample.records_call Sample.fresh _ "tok-1");
    [reflexivity | reflexivity | reflexivity | reflexivity | reflexivity
    | discriminate].
Defined.

(** ** Request dispatcher: what comes back *)

(** On a 2xx response [request] returns the [response] member of the body:
    [undefined] when the body does not parse (it is read as [{}]) or has no
    such member; a body that is the JSON [null] makes it throw a
    [TypeError]. *)
Theorem request_ok_response :
  forall remote c params w t res,
    holds_token c w t ->
    remote (calls w) (request_call c params t) = Responded res ->
    ok res = true ->
    (json res = None ->
       fst (request remote c params w) = Return JS.VUndefined)
    /\ (json res = Some JS.VNull ->
          fst (request remote c params w) = Throw TypeError)
    /\ (forall props,
          json res = Some (JS.VObj props) ->
          fst (request remote c params w)
          = Return (JS.lookup "response" props)).
Proof.
  intros remote c params w t res H Hres Hok.
  rewrite (request_run _ _ _ _ _ _ _ (getToken_holding remote c w t H) Hres).
  cbn [fst]. rewrite (unwrap_ok _ _ Hok). cbn [fst]. unfold respData_of.
  split; [|split].
  - intros ->. reflexivity.
  - intros ->. reflexivity.
  - intros props ->. reflexivity.
Qed.

Lemma request_ok_response_witness :
  fst (request (Sample.failing 200 None) Sample.otto Sample.records_call
         Sample.keyed) = Return JS.VUndefined
  /\ fst (request (Sample.failing 200 (Some JS.VNull)) Sample.otto
            Sample.records_call Sample.keyed) = Throw TypeError
  /\ fst (request (Sample.serving (Sample.found [])) Sample.otto
            Sample.records_call Sample.keyed) = Return (Sample.found []).
Proof.
  split; [|split].
  - apply (proj1 (request_ok_response (Sample.failing 200 None) Sample.otto
                    Sample.records_call Sample.keyed "KEY_abc123" _
                    eq_refl eq_refl eq_refl)).
    reflexivity.
  - apply (proj1 (proj2 (request_ok_response
                           (Sample.failing 200 (Some JS.VNull)) Sample.otto
                           Sample.records_call Sample.keyed "KEY_abc123" _
                           eq_refl eq_refl eq_refl))).
    reflexivity.
  - apply (proj2 (proj2 (request_ok_response
                           (Sample.serving (Sample.found [])) Sample.otto
                           Sample.records_call Sample.keyed "KEY_abc123" _
                           eq_refl eq_refl eq_refl))
             [("response", Sample.found []);
              ("messages", JS.VArr [JS.VObj [("code", JS.VStr "0");
                                             ("message", JS.VStr "OK")]])]).
    reflexivity.
Defined.

(** On a response outside 2xx whose first message is an object, [request]
    throws a [FileMakerError] with that message's [code], or ["500"] when it
    has none, and with the message built from the status and the printed
    body. *)
Theorem request_failure_first_message :
  forall remote c params w t res props m others,
    holds_token c w t ->
    remote (calls w) (request_call c params t) = Responded res ->
    ok res = false ->
    json res = Some (JS.VObj props) ->
    JS.lookup "messages" props = JS.VArr (JS.VObj m :: others) ->
    fst (request remote c params w)
    = Throw (FileMakerError
               (if JS.nullish (JS.lookup "code" m)
                then JS.VStr "500"
                else JS.lookup "code" m)
               (JS.VStr ("Filemaker Data API failed with ("
                         ++ JS.Number_toString (status res) ++ "): "
                         ++ JS.JSON_stringify (JS.VObj props)))).
Proof.
  intros remote c params w t res props m others H Hres Hok Hjson Hmsgs.
  rewrite (request_run _ _ _ _ _ _ _ (getToken_holding remote c w t H) Hres).
  cbn [fst]. rewrite (unwrap_not_ok _ _ Hok). cbn [fst].
  unfold failure_message, respData_of. rewrite Hjson.
  rewrite (error_code_first_message _ _ _ Hmsgs). reflexivity.
Qed.

Lemma request_failure_first_message_witness :
  exists message,
    fst (request Sample.no_records Sample.otto Sample.records_call Sample.keyed)
    = Throw (FileMakerError (JS.VStr "401") (JS.VStr message))
    /\ String.prefix "Filemaker Data API failed with (500): {" message = true.
Proof.
  eexists. split.
  - apply (request_failure_first_message Sample.no_records Sample.otto
             Sample.records_call Sample.keyed "KEY_abc123"
             (Sample.answer 500
                (Some (Sample.envelope (JS.VObj []) "401"
                         "No records match the request")))
             [("response", JS.VObj []);
              ("messages",
               JS.VArr [JS.VObj [("code", JS.VStr "401");
                                 ("message",
                                  JS.VStr "No records match the request")]])]
             [("code", JS.VStr "401");
              ("message", JS.VStr "No records match the request")]
             []);
      reflexivity.
  - reflexivity.
Defined.

Lemma request_unparsable_failure_witness :
  fst (request (Sample.failing 502 None) Sample.user Sample.records_call
         Sample.logged_in)
  = Throw (FileMakerError (JS.VStr "500")
             (JS.VStr "Filemaker Data API failed with (502): {}")).
Proof.
  exact (request_unparsable_failure (Sample.failing 502 None) Sample.user
           Sample.records_call Sample.logged_in "tok-0" Sample.logged_in
           {| status := 502; json := None; access_token := None |}
           eq_refl eq_refl eq_refl eq_refl).
Defined.

(** A client as [DataApi] returns it: built from an API key, its first
    request is one call authorised with the key; built from a user name and
    password, its first request starts with the login. *)
Theorem request_after_construction :
  forall canParse remote input c w0 params,
    DataApi canParse input = Return (c, w0) ->
    match auth input with
    | OttoAuth apiKey _ =>
        snd (request remote c params w0)
        = {| token := Some apiKey; calls := [request_call c params apiKey] |}
    | UserPasswordAuth username password =>
        exists more,
          calls (snd (request remote c params w0))
          = login_request c username password :: more
    end.
Proof.
  intros canParse remote input c w0 params H.
  unfold DataApi in H.
  destruct (ZodOptions_parse_cases input) as [[Hz _] | [Hz _]];
    rewrite Hz in H; cbn [obind] in H; [|discriminate].
  destruct (negb (canParse _)); [discriminate|].
  destruct (auth input) as [apiKey ottoPort|username password] eqn:Hauth;
    injection H as <- <-.
  - rewrite (request_world_holding remote _ params _ apiKey);
      [reflexivity|].
    unfold holds_token. cbn [options]. rewrite Hauth. reflexivity.
  - set (c := {| options := input; baseUrl := _ |}).
    set (w0 := {| token := None; calls := [] |}).
    assert (Hc : auth (options c) = UserPasswordAuth username password)
      by exact Hauth.
    destruct (getToken remote c false w0) as [[t|e] w1] eqn:Hget.
    + destruct (getToken_returns_from _ _ _ _ _ _ _ Hc Hget)
        as [[Hcell _] | (_ & -> & _ & _)]; [discriminate|].
      unfold request. rewrite (bind_Return _ _ _ _ _ _ _ Hget).
      unfold bind, fetch. cbn [token calls app].
      exists [request_call c params t].
      destruct (remote _ (request_call c params t)) as [|res2];
        [reflexivity|].
      pose proof (unwrap_world res2
        {| token := Some t;
           calls := [login_request c username password;
                     request_call c params t] |}) as Hw.
      destruct (unwrap res2 _) as [[v|e] w2]; cbn [snd] in *;
        rewrite Hw; reflexivity.
    + exists [].
      destruct (request_throw_of_getToken _ _ _ _ params _ _ _ Hc Hget)
        as [-> Hcalls].
      exact Hcalls.
Qed.

Lemma request_after_construction_witness :
  snd (request Sample.no_records Sample.otto Sample.records_call Sample.keyed)
  = {| token := Some "KEY_abc123";
       calls := [request_call Sample.otto Sample.records_call "KEY_abc123"] |}
  /\ exists more,
       calls (snd (request Sample.refusing Sample.user Sample.records_call
                     Sample.fresh))
       = login_request Sample.user "admin" "secret" :: more.
Proof.
  split.
  - exact (request_after_construction Sample.canParse Sample.no_records
             Sample.otto_props Sample.otto Sample.keyed Sample.records_call
             eq_refl).
  - exact (request_after_construction Sample.canParse Sample.refusing
             Sample.user_props Sample.user Sample.fresh Sample.records_call
             eq_refl).
Defined.

(** ** Argument objects *)

Lemma has_set :
  forall x k v o, JS.has x (JS.set k v o) = String.eqb x k || JS.has x o.
Proof.
  intros x k v o. unfold JS.has.
  induction o as [|[k' v'] o IH]; cbn [JS.set existsb fst].
  - reflexivity.
  - destruct (String.eqb_spec k k') as [<-|Hne]; cbn [existsb fst].
    + destruct (String.eqb x k); reflexivity.
    + rewrite IH. destruct (String.eqb x k), (String.eqb x k'); reflexivity.
Qed.

Lemma has_delete :
  forall x k o,
    JS.has x (JS.delete k o) = negb (String.eqb x k) && JS.has x o.
Proof.
  intros x k o. unfold JS.delete, JS.has.
  induction o as [|[k' v'] o IH]; cbn [filter fst existsb].
  - destruct (String.eqb x k); reflexivity.
  - destruct (String.eqb_spec k k') as [<-|Hne]; cbn [negb existsb fst].
    + rewrite IH. destruct (String.eqb x k); reflexivity.
    + rewrite IH.
      destruct (String.eqb_spec x k) as [->|Hxk]; cbn [negb andb].
      * apply String.eqb_neq in Hne. rewrite Hne. reflexivity.
      * reflexivity.
Qed.

Lemma has_rest :
  forall x ks o,
    JS.has x (JS.rest ks o)
    = negb (existsb (String.eqb x) ks) && JS.has x o.
Proof.
  intros x ks o. unfold JS.rest, JS.has.
  induction o as [|[k' v'] o IH]; cbn [filter fst existsb].
  - destruct (existsb (String.eqb x) ks); reflexivity.
  - destruct (String.eqb_spec x k') as [<-|Hne].
    + destruct (existsb (String.eqb x) ks) eqn:E; cbn [negb andb orb].
      * rewrite IH. reflexivity.
      * cbn [existsb fst]. rewrite String.eqb_refl. reflexivity.
    + cbn [orb].
      destruct (existsb (String.eqb k') ks); cbn [negb].
      * exact IH.
      * cbn [existsb fst].
        apply String.eqb_neq in Hne. rewrite Hne. exact IH.
Qed.

Lemma has_spread :
  forall x o2 o1, JS.has x (JS.spread o1 o2) = JS.has x o1 || JS.has x o2.
Proof.
  intros x o2. unfold JS.spread.
  induction o2 as [|[k v] o2 IH]; intros o1; cbn [fold_left fst snd].
  - unfold JS.has at 3. cbn [existsb]. rewrite orb_false_r. reflexivity.
  - rewrite IH, has_set.
    change (JS.has x ((k, v) :: o2)) with (String.eqb x k || JS.has x o2).
    destruct (String.eqb x k), (JS.has x o1), (JS.has x o2); reflexivity.
Qed.

Lemma is_object_rest :
  forall ks o, is_object o -> is_object (JS.rest ks o).
Proof.
  intros ks o. unfold is_object, JS.rest.
  induction o as [|[k v] o IH]; cbn [filter map fst]; intros H.
  - constructor.
  - inversion H as [|? ? Hnotin Hrest]; subst.
    destruct (existsb (String.eqb k) ks); cbn [negb map fst].
    + apply IH. assumption.
    + constructor; [|apply IH; assumption].
      intros Hin. apply Hnotin.
      apply in_map_iff in Hin as ([k' v'] & <- & Hin).
      apply filter_In in Hin as [Hin _].
      apply in_map_iff. exists (k', v'). split; [reflexivity|assumption].
Qed.

Lemma has_false_not_in :
  forall k o, ~ In k (map fst o) -> JS.has k o = false.
Proof.
  intros k o. induction o as [|[k' v'] o IH]; cbn; intros H; [reflexivity|].
  destruct (String.eqb_spec k k') as [->|Hne].
  - exfalso. apply H. left. reflexivity.
  - apply IH. intros Hin. apply H. right. assumption.
Qed.

(** A spread of an object copies each of its properties, and keeps the
    others. *)
Lemma lookup_spread :
  forall x o2 o1,
    is_object o2 ->
    JS.lookup x (JS.spread o1 o2)
    = if JS.has x o2 then JS.lookup x o2 else JS.lookup x o1.
Proof.
  intros x o2. unfold JS.spread, is_object.
  induction o2 as [|[k v] o2 IH]; intros o1 H; cbn [fold_left fst snd map].
  - reflexivity.
  - inversion H as [|? ? Hnotin Hrest]; subst.
    rewrite (IH _ Hrest). cbn [JS.has existsb fst JS.lookup].
    fold (JS.has x o2).
    destruct (String.eqb_spec x k) as [->|Hne]; cbn [orb].
    + rewrite (has_false_not_in _ _ Hnotin). apply lookup_set_same.
    + destruct (JS.has x o2); [reflexivity|].
      apply lookup_set_other. congruence.
Qed.

Lemma lookup_rest_in :
  forall x ks o,
    existsb (String.eqb x) ks = true ->
    JS.lookup x (JS.rest ks o) = JS.VUndefined.
Proof.
  intros x ks o H. apply has_false_lookup. rewrite has_rest, H. reflexivity.
Qed.

(** ** Operation layer: the calls that go out *)

(** The layout of an operation, as text in the path: the [layout] of the
    arguments when it is a string; the default of the client when the
    arguments have none; and, when there is neither, the text
    [undefined] -- the call is made all the same. *)
Theorem metadata_layout :
  forall remote c args w t,
    holds_token c w t ->
    let call l :=
      {| method := "GET"; base := baseUrl c; path := "/layouts/" ++ l;
         query := None; body := None; authorization := Bearer t |} in
    (forall l, JS.lookup "layout" args = JS.VStr l ->
       snd (metadata remote c args w) = after_call w (call l))
    /\ (forall l, JS.lookup "layout" args = JS.VUndefined ->
          layout (options c) = Some l ->
          snd (metadata remote c args w) = after_call w (call l))
    /\ (JS.lookup "layout" args = JS.VUndefined ->
        layout (options c) = None ->
        snd (metadata remote c args w) = after_call w (call "undefined")).
Proof.
  intros remote c args w t H call. subst call. unfold metadata.
  split; [|split].
  - intros l Hl. rewrite (request_world_holding _ _ _ _ _ H).
    unfold request_call, layout_of. cbn. rewrite Hl. reflexivity.
  - intros l Hl Hd. rewrite (request_world_holding _ _ _ _ _ H).
    unfold request_call, layout_of. cbn. rewrite Hl, Hd. reflexivity.
  - intros Hl Hd. rewrite (request_world_holding _ _ _ _ _ H).
    unfold request_call, layout_of. cbn. rewrite Hl, Hd. reflexivity.
Qed.

Lemma metadata_layout_witness :
  path (last (calls (snd (metadata Sample.no_records Sample.otto
                            Sample.get_args Sample.keyed)))
          (login_request Sample.otto "" ""))
  = "/layouts/Orders"
  /\ path (last (calls (snd (metadata Sample.no_records Sample.otto []
                               Sample.keyed)))
             (login_request Sample.otto "" ""))
     = "/layouts/Customers"
  /\ path (last (calls (snd (metadata Sample.no_records Sample.bare []
                               Sample.keyed)))
             (login_request Sample.otto "" ""))
     = "/layouts/undefined".
Proof.
  split; [|split].
  - rewrite (proj1 (metadata_layout Sample.no_records Sample.otto
                      Sample.get_args Sample.keyed "KEY_abc123" eq_refl)
               "Orders" eq_refl).
    reflexivity.
  - rewrite (proj1 (proj2 (metadata_layout Sample.no_records Sample.otto []
                             Sample.keyed "KEY_abc123" eq_refl))
               "Customers" eq_refl eq_refl).
    reflexivity.
  - rewrite (proj2 (proj2 (metadata_layout Sample.no_records Sample.bare []
                             Sample.keyed "KEY_abc123" eq_refl))
               eq_refl eq_refl).
    reflexivity.
Defined.

(** [get] and [delete] make the same call but for the method: the record
    id is in the path, and the query is the arguments without [recordId]
    and [layout], every other key as given. *)
Theorem get_delete_calls :
  forall remote c args w t,
    holds_token c w t ->
    exists q,
      let call m :=
        {| method := m; base := baseUrl c;
           path := "/layouts/" ++ JS.ToString (layout_of c args)
                   ++ "/records/" ++ JS.ToString (JS.lookup "recordId" args);
           query := Some q; body := None; authorization := Bearer t |} in
      snd (get remote c args w) = after_call w (call "GET")
      /\ snd (deleteRecord remote c args w) = after_call w (call "DELETE")
      /\ JS.has "recordId" q = false
      /\ JS.has "layout" q = false
      /\ (forall k, k <> "recordId" -> k <> "layout" ->
            JS.has k q = JS.has k args /\ JS.lookup k q = JS.lookup k args).
Proof.
  intros remote c args w t H.
  exists (JS.rest ["recordId"; "layout"] args). cbv zeta.
  split; [|split; [|split; [|split]]].
  - unfold get. rewrite (request_world_holding _ _ _ _ _ H). reflexivity.
  - unfold deleteRecord. rewrite (request_world_holding _ _ _ _ _ H).
    reflexivity.
  - rewrite has_rest. reflexivity.
  - rewrite has_rest. reflexivity.
  - intros k H1 H2.
    assert (E : existsb (String.eqb k) ["recordId"; "layout"] = false).
    { cbn [existsb]. apply String.eqb_neq in H1, H2. rewrite H1, H2.
      reflexivity. }
    split.
    + rewrite has_rest, E. reflexivity.
    + apply lookup_rest_other. exact E.
Qed.

Lemma get_delete_calls_witness :
  calls (snd (get Sample.no_records Sample.otto Sample.get_args Sample.keyed))
  = [ {| method := "GET"; base := baseUrl Sample.otto;
         path := "/layouts/Orders/records/7";
         query := Some [("layout.response", JS.VStr "Web")];
         body := None; authorization := Bearer "KEY_abc123" |} ]
  /\ exists q,
       snd (deleteRecord Sample.no_records Sample.otto Sample.get_args
              Sample.keyed)
       = after_call Sample.keyed
           {| method := "DELETE"; base := baseUrl Sample.otto;
              path := "/layouts/Orders/records/7";
              query := Some q;
              body := None; authorization := Bearer "KEY_abc123" |}
       /\ JS.has "recordId" q = false.
Proof.
  split; [reflexivity|].
  destruct (get_delete_calls Sample.no_records Sample.otto Sample.get_args
              Sample.keyed "KEY_abc123" eq_refl)
    as (q & _ & Hdel & Hid & _).
  exists q. split; [exact Hdel | exact Hid].
Defined.

(** The body of [{ k: v, ...params }] where [params] is what the rest
    pattern left of [args]: [k] holds [v], the keys taken out by the
    pattern are not there, every other key is as in [args]. *)
Lemma body_props :
  forall k v ks args,
    is_object args ->
    existsb (String.eqb k) ks = true ->
    let b := JS.spread [(k, v)] (JS.rest ks args) in
    JS.lookup k b = v
    /\ (forall x, x <> k -> existsb (String.eqb x) ks = true ->
          JS.has x b = false)
    /\ (forall x, existsb (String.eqb x) ks = false ->
          JS.has x b = JS.has x args /\ JS.lookup x b = JS.lookup x args).
Proof.
  intros k v ks args Hobj Hk b. subst b.
  pose proof (is_object_rest ks args Hobj) as Hrest.
  split; [|split].
  - rewrite (lookup_spread _ _ _ Hrest), has_rest, Hk. cbn.
    rewrite String.eqb_refl. reflexivity.
  - intros x Hx Hin. rewrite has_spread, has_rest, Hin.
    unfold JS.has. cbn. apply String.eqb_neq in Hx. rewrite Hx. reflexivity.
  - intros x Hout.
    assert (Hx : String.eqb x k = false).
    { destruct (String.eqb_spec x k) as [->|]; [congruence|reflexivity]. }
    split.
    + rewrite has_spread, has_rest, Hout. unfold JS.has at 1. cbn.
      rewrite Hx. reflexivity.
    + rewrite (lookup_spread _ _ _ Hrest), has_rest, Hout. cbn [negb andb].
      destruct (JS.has x args) eqn:Hhas.
      * apply lookup_rest_other. exact Hout.
      * cbn. rewrite Hx. symmetry. apply has_false_lookup. exact Hhas.
Qed.

(** [create] makes one [POST] (the method [request] falls back to) without
    a query; its body holds [fieldData], never [layout], and every other
    argument as given. *)
Theorem create_call :
  forall remote c args w t,
    holds_token c w t ->
    is_object args ->
    exists b,
      snd (create remote c args w)
      = after_call w
          {| method := "POST"; base := baseUrl c;
             path := "/layouts/" ++ JS.ToString (layout_of c args) ++ "/records";
             query := None; body := Some b; authorization := Bearer t |}
      /\ JS.lookup "fieldData" b = JS.lookup "fieldData" args
      /\ JS.has "layout" b = false
      /\ (forall k, k <> "fieldData" -> k <> "layout" ->
            JS.has k b = JS.has k args /\ JS.lookup k b = JS.lookup k args).
Proof.
  intros remote c args w t H Hobj.
  destruct (body_props "fieldData" (JS.lookup "fieldData" args)
              ["fieldData"; "layout"] args Hobj eq_refl)
    as (Hfd & Hout & Hother).
  eexists. split; [|split; [|split]].
  - unfold create. rewrite (request_world_holding _ _ _ _ _ H). reflexivity.
  - exact Hfd.
  - apply Hout; [discriminate|reflexivity].
  - intros k H1 H2. apply Hother. cbn [existsb].
    apply String.eqb_neq in H1, H2. rewrite H1, H2. reflexivity.
Qed.

Lemma create_call_witness :
  calls (snd (create Sample.no_records Sample.otto Sample.update_args
                Sample.keyed))
  = [ {| method := "POST"; base := baseUrl Sample.otto;
         path := "/layouts/Customers/records";
         query := None;
         body := Some [("fieldData", JS.VObj [("Name", JS.VStr "Ann")]);
                       ("recordId", JS.VNum 7); ("modId", JS.VNum 3)];
         authorization := Bearer "KEY_abc123" |} ]
  /\ exists b,
       snd (create Sample.no_records Sample.otto Sample.update_args Sample.keyed)
       = after_call Sample.keyed
           {| method := "POST"; base := baseUrl Sample.otto;
              path := "/layouts/Customers/records";
              query := None; body := Some b;
              authorization := Bearer "KEY_abc123" |}
       /\ JS.has "layout" b = false.
Proof.
  split; [reflexivity|].
  assert (Hobj : is_object Sample.update_args).
  { unfold is_object. cbn.
    repeat (constructor; [cbn; intuition discriminate|]). constructor. }
  destruct (create_call Sample.no_records Sample.otto Sample.update_args
              Sample.keyed "KEY_abc123" eq_refl Hobj)
    as (b & Hcall & _ & Hlayout & _).
  exists b. split; [exact Hcall | exact Hlayout].
Defined.

(** [update] makes one [PATCH] of the record's path without a query; its
    body holds [fieldData], never [recordId] or [layout], and every other
    argument as given. *)
Theorem update_call :
  forall remote c args w t,
    holds_token c w t ->
    is_object args ->
    exists b,
      snd (update remote c args w)
      = after_call w
          {| method := "PATCH"; base := baseUrl c;
             path := "/layouts/" ++ JS.ToString (layout_of c args)
                     ++ "/records/" ++ JS.ToString (JS.lookup "recordId" args);
             query := None; body := Some b; authorization := Bearer t |}
      /\ JS.lookup "fieldData" b = JS.lookup "fieldData" args
      /\ JS.has "recordId" b = false
      /\ JS.has "layout" b = false
      /\ (forall k, k <> "recordId" -> k <> "fieldData" -> k <> "layout" ->
            JS.has k b = JS.has k args /\ JS.lookup k b = JS.lookup k args).
Proof.
  intros remote c args w t H Hobj.
  destruct (body_props "fieldData" (JS.lookup "fieldData" args)
              ["recordId"; "fieldData"; "layout"] args Hobj eq_refl)
    as (Hfd & Hout & Hother).
  eexists. split; [|split; [|split; [|split]]].
  - unfold update. rewrite (request_world_holding _ _ _ _ _ H). reflexivity.
  - exact Hfd.
  - apply Hout; [discriminate|reflexivity].
  - apply Hout; [discriminate|reflexivity].
  - intros k H1 H2 H3. apply Hother. cbn [existsb].
    apply String.eqb_neq in H1, H2, H3. rewrite H1, H2, H3. reflexivity.
Qed.

Lemma update_call_witness :
  calls (snd (update Sample.no_records Sample.otto Sample.update_args
                Sample.keyed))
  = [ {| method := "PATCH"; base := baseUrl Sample.otto;
         path := "/layouts/Customers/records/7";
         query := None;
         body := Some [("fieldData", JS.VObj [("Name", JS.VStr "Ann")]);
                       ("modId", JS.VNum 3)];
         authorization := Bearer "KEY_abc123" |} ]
  /\ exists b,
       snd (update Sample.no_records Sample.otto Sample.update_args Sample.keyed)
       = after_call Sample.keyed
           {| method := "PATCH"; base := baseUrl Sample.otto;
              path := "/layouts/Customers/records/7";
              query := None; body := Some b;
              authorization := Bearer "KEY_abc123" |}
       /\ JS.has "recordId" b = false.
Proof.
  split; [reflexivity|].
  assert (Hobj : is_object Sample.update_args).
  { unfold is_object. cbn.
    repeat (constructor; [cbn; intuition discriminate|]). constructor. }
  destruct (update_call Sample.no_records Sample.otto Sample.update_args
              Sample.keyed "KEY_abc123" eq_refl Hobj)
    as (b & Hcall & _ & Hid & _).
  exists b. split; [exact Hcall | exact Hid].
Defined.

(** ** Operation layer: [find] and its helpers *)

(** [find] makes one [POST] of [/_find] without a query.  In its body
    [query] is always an array (a single query is wrapped, an array is sent
    as it is); [layout] and [ignoreEmptyResult] are never sent; every other
    argument, [limit], [offset] and [sort] included, is sent under its own
    name. *)
Theorem find_call :
  forall remote c args w t,
    holds_token c w t ->
    is_object args ->
    exists b,
      snd (find remote c args w)
      = after_call w
          {| method := "POST"; base := baseUrl c;
             path := "/layouts/" ++ JS.ToString (layout_of c args) ++ "/_find";
             query := None; body := Some b; authorization := Bearer t |}
      /\ JS.lookup "query" b
         = (if JS.isArray (JS.lookup "query" args)
            then JS.lookup "query" args
            else JS.VArr [JS.lookup "query" args])
      /\ JS.isArray (JS.lookup "query" b) = true
      /\ JS.has "layout" b = false
      /\ JS.has "ignoreEmptyResult" b = false
      /\ (forall k, k <> "query" -> k <> "layout" -> k <> "ignoreEmptyResult" ->
            JS.has k b = JS.has k args /\ JS.lookup k b = JS.lookup k args).
Proof.
  intros remote c args w t H Hobj.
  set (q := if negb (JS.isArray (JS.lookup "query" args))
            then JS.VArr [JS.lookup "query" args]
            else JS.lookup "query" args).
  destruct (body_props "query" q ["query"; "layout"; "ignoreEmptyResult"]
              args Hobj eq_refl)
    as (Hq & Hout & Hother).
  exists (JS.spread [("query", q)]
            (JS.rest ["query"; "layout"; "ignoreEmptyResult"] args)).
  split; [|split; [|split; [|split; [|split]]]].
  - unfold find, catch.
    pose proof (request_world_holding remote c (find_params c args) w t H)
      as Hw.
    destruct (request remote c (find_params c args) w) as [[v|e] w1];
      cbn [snd] in Hw; subst w1.
    + reflexivity.
    + unfold find_handler.
      destruct e as [code message| | | | |]; try reflexivity.
      destruct (JS.truthy _ && JS.strict_eq_str code "401"); reflexivity.
  - rewrite Hq. subst q. destruct (JS.isArray (JS.lookup "query" args));
      reflexivity.
  - rewrite Hq. subst q.
    destruct (JS.isArray (JS.lookup "query" args)) eqn:E; [exact E|reflexivity].
  - apply Hout; [discriminate|reflexivity].
  - apply Hout; [discriminate|reflexivity].
  - intros k H1 H2 H3. apply Hother. cbn [existsb].
    apply String.eqb_neq in H1, H2, H3. rewrite H1, H2, H3. reflexivity.
Qed.

Lemma find_call_witness :
  calls (snd (find Sample.no_records Sample.otto
                (("limit", JS.VNum 10) :: Sample.find_args true) Sample.keyed))
  = [ {| method := "POST"; base := baseUrl Sample.otto;
         path := "/layouts/Customers/_find";
         query := None;
         body := Some [("query", JS.VArr [JS.VObj [("Name", JS.VStr "Nobody")]]);
                       ("limit", JS.VNum 10)];
         authorization := Bearer "KEY_abc123" |} ]
  /\ exists b,
       snd (find Sample.no_records Sample.otto
              (("limit", JS.VNum 10) :: Sample.find_args true) Sample.keyed)
       = after_call Sample.keyed
           {| method := "POST"; base := baseUrl Sample.otto;
              path := "/layouts/Customers/_find";
              query := None; body := Some b;
              authorization := Bearer "KEY_abc123" |}
       /\ JS.has "ignoreEmptyResult" b = false.
Proof.
  split; [reflexivity|].
  assert (Hobj : is_object (("limit", JS.VNum 10) :: Sample.find_args true)).
  { unfold is_object. cbn.
    repeat (constructor; [cbn; intuition discriminate|]). constructor. }
  destruct (find_call Sample.no_records Sample.otto
              (("limit", JS.VNum 10) :: Sample.find_args true)
              Sample.keyed "KEY_abc123" eq_refl Hobj)
    as (b & Hcall & _ & _ & _ & Hflag & _).
  exists b. split; [exact Hcall | exact Hflag].
Defined.

(** [find] passes on what [request] returns, and its handler makes no call
    and assigns nothing: the world after [find] is the world after its
    [request], whatever the outcome. *)
Theorem find_world :
  forall remote c args w,
    snd (find remote c args w) = snd (request remote c (find_params c args) w)
    /\ (forall v w', request remote c (find_params c args) w = (Return v, w') ->
          find remote c args w = (Return v, w')).
Proof.
  intros remote c args w. unfold find, catch.
  destruct (request remote c (find_params c args) w) as [[v|e] w1].
  - split; [reflexivity|]. intros v' w' H. exact H.
  - split; [|intros v w' H; discriminate].
    unfold find_handler. destruct e as [code message| | | | |]; try reflexivity.
    destruct (JS.truthy _ && JS.strict_eq_str code "401"); reflexivity.
Qed.

Lemma find_world_witness :
  find (Sample.serving (Sample.found [])) Sample.user (Sample.find_args false)
    Sample.fresh
  = (Return (Sample.found []),
     {| token := Some "tok-1";
        calls := [login_request Sample.user "admin" "secret";
                  request_call Sample.user
                    (find_params Sample.user (Sample.find_args false))
                    "tok-1"] |}).
Proof.
  apply (proj2 (find_world (Sample.serving (Sample.found [])) Sample.user
                  (Sample.find_args false) Sample.fresh)).
  reflexivity.
Defined.

(** With [ignoreEmptyResult], a login that is refused with the code
    ["401"] is taken for an empty result as well: [find] returns
    [{ data: [] }] although the only call made was the login. *)
Theorem find_swallows_login_401 :
  forall remote c username password args w res props m others,
    auth (options c) = UserPasswordAuth username password ->
    truthy_token (token w) = None ->
    remote (calls w) (login_request c username password) = Responded res ->
    ok res = false ->
    json res = Some (JS.VObj props) ->
    JS.lookup "messages" props = JS.VArr (JS.VObj m :: others) ->
    JS.lookup "code" m = JS.VStr "401" ->
    JS.lookup "ignoreEmptyResult" args = JS.VBool true ->
    find remote c args w
    = (Return (JS.VObj [("data", JS.VArr [])]),
       after_call w (login_request c username password)).
Proof.
  intros remote c username password args w res props m others
         Hauth Hcell Hres Hok Hjson Hmsgs Hcode Hflag.
  pose proof (proj2 (getToken_refused_cases remote c username password w res
                       Hauth Hcell Hres Hok) props m others Hjson Hmsgs)
    as Hget.
  unfold find, catch, request. rewrite (bind_Throw _ _ _ _ _ _ _ Hget).
  unfold find_handler, ignoreEmptyResult_of. rewrite Hcode, Hflag.
  reflexivity.
Qed.

Lemma find_swallows_login_401_witness :
  find (Sample.failing 401
          (Some (Sample.envelope (JS.VObj []) "401" "Unauthorized")))
    Sample.user (Sample.find_args true) Sample.fresh
  = (Return (JS.VObj [("data", JS.VArr [])]),
     {| token := None;
        calls := [login_request Sample.user "admin" "secret"] |}).
Proof.
  apply (find_swallows_login_401
           (Sample.failing 401
              (Some (Sample.envelope (JS.VObj []) "401" "Unauthorized")))
           Sample.user "admin" "secret" (Sample.find_args true) Sample.fresh
           (Sample.answer 401
              (Some (Sample.envelope (JS.VObj []) "401" "Unauthorized")))
           [("response", JS.VObj []);
            ("messages",
             JS.VArr [JS.VObj [("code", JS.VStr "401");
                               ("message", JS.VStr "Unauthorized")]])]
           [("code", JS.VStr "401"); ("message", JS.VStr "Unauthorized")]
           []);
    reflexivity.
Defined.

(** When [find] returns an object whose [data] is an array, [findFirst]
    returns that object with [data] replaced by the first record, or by
    [undefined] when there is none; the number of records never makes it
    throw. *)
Theorem findFirst_first_record :
  forall remote c args w props records w',
    find remote c args w = (Return (JS.VObj props), w') ->
    JS.lookup "data" props = JS.VArr records ->
    findFirst remote c args w
    = (Return (JS.VObj (JS.set "data" (hd JS.VUndefined records) props)), w')
    /\ JS.lookup "data" (JS.set "data" (hd JS.VUndefined records) props)
       = hd JS.VUndefined records.
Proof.
  intros remote c args w props records w' Hfind Hdata. split.
  - unfold findFirst. rewrite (bind_Return _ _ _ _ _ _ _ Hfind).
    run. cbn [prop]. rewrite Hdata. reflexivity.
  - apply lookup_set_same.
Qed.

Lemma findFirst_first_record_witness :
  fst (findFirst (Sample.serving
                    (Sample.found [Sample.record 7 "Ann"; Sample.record 8 "Bob"]))
         Sample.otto (Sample.find_args false) Sample.keyed)
  = Return (JS.VObj [("data", Sample.record 7 "Ann")])
  /\ fst (findFirst (Sample.serving (Sample.found []))
            Sample.otto (Sample.find_args false) Sample.keyed)
     = Return (JS.VObj [("data", JS.VUndefined)]).
Proof.
  split.
  - rewrite (proj1 (findFirst_first_record
                      (Sample.serving
                         (Sample.found [Sample.record 7 "Ann"; Sample.record 8 "Bob"]))
                      Sample.otto (Sample.find_args false) Sample.keyed
                      [("data", JS.VArr [Sample.record 7 "Ann"; Sample.record 8 "Bob"])]
                      [Sample.record 7 "Ann"; Sample.record 8 "Bob"]
                      _ eq_refl eq_refl)).
    reflexivity.
  - rewrite (proj1 (findFirst_first_record
                      (Sample.serving (Sample.found []))
                      Sample.otto (Sample.find_args false) Sample.keyed
                      [("data", JS.VArr [])] [] _ eq_refl eq_refl)).
    reflexivity.
Defined.

(** [ignoreEmptyResult] does not carry over to [findOne]: when the request
    fails with the code ["401"], [find] gives [{ data: [] }], on which
    [findOne] throws its own error for 0 records, while [findFirst] returns
    [{ data: undefined }]. *)
Theorem findOne_no_records :
  forall remote c args w message w',
    request remote c (find_params c args) w
    = (Throw (FileMakerError (JS.VStr "401") message), w') ->
    JS.lookup "ignoreEmptyResult" args = JS.VBool true ->
    findOne remote c args w
    = (Throw (JsError "0 records found; expecting exactly 1"), w')
    /\ findFirst remote c args w
       = (Return (JS.VObj [("data", JS.VUndefined)]), w').
Proof.
  intros remote c args w message w' Hreq Hflag.
  assert (Hfind : find remote c args w
                  = (Return (JS.VObj [("data", JS.VArr [])]), w')).
  { unfold find, catch. rewrite Hreq.
    unfold find_handler, ignoreEmptyResult_of. rewrite Hflag. reflexivity. }
  split.
  - unfold findOne. rewrite (bind_Return _ _ _ _ _ _ _ Hfind). reflexivity.
  - unfold findFirst. rewrite (bind_Return _ _ _ _ _ _ _ Hfind). reflexivity.
Qed.

Lemma findOne_no_records_witness :
  fst (findOne Sample.no_records Sample.otto (Sample.find_args true)
         Sample.keyed)
  = Throw (JsError "0 records found; expecting exactly 1")
  /\ fst (findFirst Sample.no_records Sample.otto (Sample.find_args true)
            Sample.keyed)
     = Return (JS.VObj [("data", JS.VUndefined)]).
Proof.
  destruct (findOne_no_records Sample.no_records Sample.otto
              (Sample.find_args true) Sample.keyed _ _ eq_refl eq_refl)
    as [H1 H2].
  rewrite H1, H2. split; reflexivity.
Defined.

(** What [find] throws, [findOne] and [findFirst] throw; and on a result
    that is [undefined] (a 2xx body without [response]) or an object without
    [data], both throw a [TypeError]. *)
Theorem findOne_findFirst_failures :
  forall remote c args w w',
    (forall e,
       find remote c args w = (Throw e, w') ->
       findOne remote c args w = (Throw e, w')
       /\ findFirst remote c args w = (Throw e, w'))
    /\ (find remote c args w = (Return JS.VUndefined, w') ->
        findOne remote c args w = (Throw TypeError, w')
        /\ findFirst remote c args w = (Throw TypeError, w'))
    /\ (forall props,
          find remote c args w = (Return (JS.VObj props), w') ->
          JS.nullish (JS.lookup "data" props) = true ->
          findOne remote c args w = (Throw TypeError, w')
          /\ findFirst remote c args w = (Throw TypeError, w')).
Proof.
  intros remote c args w w'. split; [|split].
  - intros e Hfind. unfold findOne, findFirst.
    rewrite !(bind_Throw _ _ _ _ _ _ _ Hfind). split; reflexivity.
  - intros Hfind. unfold findOne, findFirst.
    rewrite !(bind_Return _ _ _ _ _ _ _ Hfind). split; reflexivity.
  - intros props Hfind Hnull. unfold findOne, findFirst.
    rewrite !(bind_Return _ _ _ _ _ _ _ Hfind). run. cbn [prop].
    destruct (JS.lookup "data" props); try discriminate; split; reflexivity.
Qed.

Lemma findOne_findFirst_failures_witness :
  fst (findOne (Sample.failing 200 None) Sample.otto (Sample.find_args true)
         Sample.keyed) = Throw TypeError
  /\ fst (findFirst Sample.refusing Sample.user (Sample.find_args true)
            Sample.fresh)
     = Throw (FileMakerError (JS.VStr "212") (JS.VStr "Invalid user account")).
Proof.
  split.
  - destruct (proj1 (proj2 (findOne_findFirst_failures
                              (Sample.failing 200 None) Sample.otto
                              (Sample.find_args true) Sample.keyed _))
                eq_refl) as [H _].
    rewrite H. reflexivity.
  - destruct (proj1 (findOne_findFirst_failures
                       Sample.refusing Sample.user
                       (Sample.find_args true) Sample.fresh _)
                _ eq_refl) as [_ H].
    rewrite H. reflexivity.
Defined.

(** ** Session teardown: the token afterwards *)

(** With a token [t] in the cache [disconnect] makes one call, the
    [DELETE] of [/sessions/t] authorised with [t], and [token] is as before
    whether the call succeeds, is refused or is rejected. *)
Theorem disconnect_keeps_token :
  forall remote c username password w t,
    auth (options c) = UserPasswordAuth username password ->
    truthy_token (token w) = Some t ->
    snd (disconnect remote c w)
    = {| token := token w;
         calls := (calls w
                   ++ [ {| method := "DELETE"; base := baseUrl c;
                           path := "/sessions/" ++ t;
                           query := None; body := None;
                           authorization := Bearer t |} ])%list |}.
Proof.
  intros remote c username password w t Hauth Hcell.
  assert (H : holds_token c w t)
    by (unfold holds_token; rewrite Hauth; exact Hcell).
  unfold disconnect. rewrite Hauth.
  rewrite (bind_Return _ _ _ _ _ _ _ (getToken_holding remote c w t H)).
  unfold bind, fetch.
  destruct (remote (calls w) (logout_request c t)) as [|res]; [reflexivity|].
  pose proof (unwrap_world res
    {| token := token w;
       calls := (calls w ++ [logout_request c t])%list |}) as Hw.
  destruct (unwrap res _) as [[v|e] w2]; cbn [snd] in *; exact Hw.
Qed.

Lemma disconnect_keeps_token_witness :
  disconnect (Sample.failing 500 None) Sample.user Sample.logged_in
  = (Throw (FileMakerError (JS.VStr "500")
              (JS.VStr "Filemaker Data API failed with (500): {}")),
     {| token := Some "tok-0";
        calls := [ {| method := "DELETE"; base := baseUrl Sample.user;
                      path := "/sessions/tok-0";
                      query := None; body := None;
                      authorization := Bearer "tok-0" |} ] |})
  /\ snd (disconnect (Sample.failing 500 None) Sample.user Sample.logged_in)
     = {| token := Some "tok-0";
          calls := [ {| method := "DELETE"; base := baseUrl Sample.user;
                        path := "/sessions/tok-0";
                        query := None; body := None;
                        authorization := Bearer "tok-0" |} ] |}.
Proof.
  split; [reflexivity|].
  exact (disconnect_keeps_token (Sample.failing 500 None) Sample.user
           "admin" "secret" Sample.logged_in "tok-0" eq_refl eq_refl).
Defined.

(** After a [disconnect] that succeeded, whose last call was the [DELETE]
    of [/sessions/t] authorised with [t], that token is still the one in
    use: the next request makes no login and is one call authorised with
    [t]. *)
Theorem request_after_disconnect :
  forall remote c username password w v w1 params,
    auth (options c) = UserPasswordAuth username password ->
    disconnect remote c w = (Return v, w1) ->
    exists t earlier,
      calls w1
      = (earlier
         ++ [ {| method := "DELETE"; base := baseUrl c;
                 path := "/sessions/" ++ t;
                 query := None; body := None;
                 authorization := Bearer t |} ])%list
      /\ snd (request remote c params w1)
         = {| token := token w1;
              calls :=
                (calls w1
                 ++ [ {| method := match rp_method params with
                                   | Some m => m
                                   | None => "POST"
                                   end;
                         base := baseUrl c;
                         path := rp_url params;
                         query := rp_query params;
                         body := rp_body params;
                         authorization := Bearer t |} ])%list |}.
Proof.
  intros remote c username password w v w1 params Hauth Hrun.
  unfold disconnect in Hrun. rewrite Hauth in Hrun.
  apply bind_inv_Return in Hrun as (t & w0 & Htok & Hrun).
  apply bind_inv_Return in Hrun as (res & w2 & Hf & Hrun).
  apply fetch_inv_Return in Hf as [_ ->].
  pose proof (unwrap_world res
    {| token := token w0;
       calls := (calls w0 ++ [logout_request c t])%list |}) as Hw.
  rewrite Hrun in Hw. cbn [snd] in Hw. subst w1.
  destruct (getToken_returns_cached _ _ _ _ _ _ _ Hauth Htok) as [Hcell Hne].
  exists t, (calls w0). split.
  - reflexivity.
  - apply (request_world_holding remote c params
             {| token := token w0;
                calls := (calls w0 ++ [logout_request c t])%list |} t).
    unfold holds_token. rewrite Hauth.
    cbn [token]. rewrite Hcell. apply truthy_token_nonempty. exact Hne.
Qed.

Lemma request_after_disconnect_witness :
  exists t earlier,
    [login_request Sample.user "admin" "secret";
     {| method := "DELETE"; base := baseUrl Sample.user;
        path := "/sessions/tok-1"; query := None; body := None;
        authorization := Bearer "tok-1" |}]
    = (earlier
       ++ [ {| method := "DELETE"; base := baseUrl Sample.user;
               path := "/sessions/" ++ t; query := None; body := None;
               authorization := Bearer t |} ])%list
    /\ snd (request (Sample.serving JS.VNull) Sample.user Sample.records_call
              {| token := Some "tok-1";
                 calls := [login_request Sample.user "admin" "secret";
                           logout_request Sample.user "tok-1"] |})
       = {| token := Some "tok-1";
            calls :=
              ([login_request Sample.user "admin" "secret";
                logout_request Sample.user "tok-1"]
               ++ [ {| method := "GET"; base := baseUrl Sample.user;
                       path := "/layouts/Customers/records";
                       query := Some []; body := None;
                       authorization := Bearer t |} ])%list |}.
Proof.
  exact (request_after_disconnect (Sample.serving JS.VNull) Sample.user
           "admin" "secret" Sample.fresh JS.VNull _ Sample.records_call
           eq_refl eq_refl).
Defined.

(** ** Operation layer: [list] *)

Lemma has_rename :
  forall k k' f params x,
    JS.has x (rename k k' f params)
    = if JS.truthy (JS.lookup k params)
      then negb (String.eqb x k) && (String.eqb x k' || JS.has x params)
      else JS.has x params.
Proof.
  intros k k' f params x. unfold rename.
  destruct (JS.truthy (JS.lookup k params)); [|reflexivity].
  rewrite has_delete, has_set. reflexivity.
Qed.

Lemma has_rename_other :
  forall k k' f params x,
    String.eqb x k = false -> String.eqb x k' = false ->
    JS.has x (rename k k' f params) = JS.has x params.
Proof.
  intros k k' f params x H1 H2. rewrite has_rename, H1, H2.
  destruct (JS.truthy (JS.lookup k params)); reflexivity.
Qed.

Lemma lookup_rename_other :
  forall k k' f params x,
    k <> k' ->
    String.eqb x k = false -> String.eqb x k' = false ->
    JS.lookup x (rename k k' f params) = JS.lookup x params.
Proof.
  intros k k' f params x Hne H1 H2. rewrite lookup_rename by exact Hne.
  rewrite H1, H2. destruct (JS.truthy (JS.lookup k params)); reflexivity.
Qed.

(** [list] makes one [GET] of the layout's records without a body.  Its
    query never has [layout]; a key other than [limit], [offset], [sort]
    and their underscored names is sent as given; and [_sort], when it
    comes from a [sort] of the arguments, is an array. *)
Theorem list_call :
  forall remote c args w t,
    holds_token c w t ->
    exists q,
      snd (list remote c args w)
      = after_call w
          {| method := "GET"; base := baseUrl c;
             path := "/layouts/" ++ JS.ToString (layout_of c args) ++ "/records";
             query := Some q; body := None; authorization := Bearer t |}
      /\ JS.has "layout" q = false
      /\ (forall k,
            existsb (String.eqb k)
              ["layout"; "limit"; "offset"; "sort";
               "_limit"; "_offset"; "_sort"] = false ->
            JS.has k q = JS.has k args /\ JS.lookup k q = JS.lookup k args)
      /\ (JS.truthy (JS.lookup "sort" args) = true ->
          JS.isArray (JS.lookup "_sort" q) = true).
Proof.
  intros remote c args w t H. exists (list_query args).
  split; [|split; [|split]].
  - unfold list. rewrite (request_world_holding _ _ _ _ _ H). reflexivity.
  - unfold list_query.
    rewrite !has_rename_other by reflexivity.
    rewrite has_rest. reflexivity.
  - intros k Hk. cbn [existsb] in Hk.
    apply orb_false_iff in Hk as [Hlayout Hk].
    apply orb_false_iff in Hk as [Hlimit Hk].
    apply orb_false_iff in Hk as [Hoffset Hk].
    apply orb_false_iff in Hk as [Hsort Hk].
    apply orb_false_iff in Hk as [Hlimit' Hk].
    apply orb_false_iff in Hk as [Hoffset' Hk].
    apply orb_false_iff in Hk as [Hsort' _].
    assert (E : existsb (String.eqb k) ["layout"] = false)
      by (cbn [existsb]; rewrite Hlayout; reflexivity).
    unfold list_query. split.
    + rewrite !has_rename_other by assumption.
      rewrite has_rest, E. reflexivity.
    + rewrite !lookup_rename_other by (assumption || discriminate).
      apply lookup_rest_other. exact E.
  - intros Hsort. rewrite (proj1 (list_query_sort args)). rewrite Hsort.
    unfold wrap_sort. destruct (JS.isArray (JS.lookup "sort" args)) eqn:E;
      [exact E | reflexivity].
Qed.

Lemma list_call_witness :
  calls (snd (list Sample.no_records Sample.otto
                [("layout", JS.VStr "Orders"); ("sort", JS.VStr "Name");
                 ("portal", JS.VArr [JS.VStr "Lines"])]
                Sample.keyed))
  = [ {| method := "GET"; base := baseUrl Sample.otto;
         path := "/layouts/Orders/records";
         query := Some [("portal", JS.VArr [JS.VStr "Lines"]);
                        ("_sort", JS.VArr [JS.VStr "Name"])];
         body := None; authorization := Bearer "KEY_abc123" |} ]
  /\ exists q,
       snd (list Sample.no_records Sample.otto
              [("layout", JS.VStr "Orders"); ("sort", JS.VStr "Name");
               ("portal", JS.VArr [JS.VStr "Lines"])]
              Sample.keyed)
       = after_call Sample.keyed
           {| method := "GET"; base := baseUrl Sample.otto;
              path := "/layouts/Orders/records";
              query := Some q; body := None;
              authorization := Bearer "KEY_abc123" |}
       /\ JS.has "layout" q = false.
Proof.
  split; [reflexivity|].
  destruct (list_call Sample.no_records Sample.otto
              [("layout", JS.VStr "Orders"); ("sort", JS.VStr "Name");
               ("portal", JS.VArr [JS.VStr "Lines"])]
              Sample.keyed "KEY_abc123" eq_refl)
    as (q & Hcall & Hlayout & _).
  exists q. split; [exact Hcall | exact Hlayout].
Defined.
